(** * Version negotiation, discovery caching and hub conversion of the
      custom-metrics client (package [custom_metrics])

    Shallow embedding of
    - [staging/src/k8s.io/metrics/pkg/client/custom_metrics/util.go]
      ([APIVersionsFromDiscovery], [MetricConverter]), and
    - the discovery-backed version source of the same package
      ([apiVersionsFromDiscovery]: [fetchVersions], [chooseVersion],
      [PreferredVersion], [Invalidate]) together with the test helper
      [makeAPIGroup].

    A pointer that may be [nil] is an [option]; a [(T, error)] return whose
    value is read only under a [nil] error is a [result T]; the
    [(group, present, err)] triple of [maybeFetchVersions] and the pair of
    [Versions] are kept as Go tuples, because the caller forwards their
    components; maps are [gmap]s.  A method of a collaborator held by
    reference takes and returns the collaborator's state.  The locks of
    [apiVersionsFromDiscovery] are not modelled: every method is embedded
    as one sequential step on the receiver. *)

From stdpp Require Import base gmap strings list.

(** ** Go errors *)

(** An [error] value.  [ErrCacheEmpty] is the sentinel of the cached
    discovery package, compared by identity in [Versions]; every other
    error is known by its message only. *)
Inductive error : Type :=
| ErrCacheEmpty
| ErrorString (msg : string).

#[global] Instance error_eq_dec : EqDecision error.
Proof. solve_decision. Defined.

(** [err.Error()] *)
Definition Error (e : error) : string :=
  match e with
  | ErrCacheEmpty => "the cache has not been filled yet"
  | ErrorString msg => msg
  end.

(** The outcome of a Go function returning [(T, error)]. *)
Inductive result (T : Type) : Type :=
| Ok (v : T)
| Err (err : error).
Arguments Ok {T} v.
Arguments Err {T} err.

(** ** Types of the imported packages *)

Module schema.
(** [schema.GroupVersion] *)
Record GroupVersion : Type := { Group : string; Version : string }.

#[global] Instance GroupVersion_eq_dec : EqDecision GroupVersion.
Proof. solve_decision. Defined.

(** Modelled from the spec: [GroupVersion.String] of package [schema] is
    not among the sources.  The spec identifies a version by its (group,
    version-string) pair; the rendering used for the concrete runs below
    is [group/version], and the version alone for the empty group. *)
Definition String (gv : GroupVersion) : string :=
  if (0 <? String.length (Group gv))%nat
  then Group gv +:+ "/" +:+ Version gv
  else Version gv.
End schema.

Module metav1.
(** [metav1.GroupVersionForDiscovery] *)
Record GroupVersionForDiscovery : Type :=
  { GroupVersion : string; Version : string }.

(** [metav1.APIGroup], with the fields the package reads. *)
Record APIGroup : Type :=
  { Name : string;
    Versions : list GroupVersionForDiscovery;
    PreferredVersion : GroupVersionForDiscovery }.

(** [metav1.APIGroupList] *)
Record APIGroupList : Type := { Groups : list APIGroup }.
End metav1.

Module discovery.
(** [discovery.DiscoveryInterface], of which the package calls
    [ServerGroups] only.  [C] is the state behind the interface value. *)
Class DiscoveryInterface (C : Type) : Type :=
  ServerGroups : C → result metav1.APIGroupList * C.

(** [discovery.CachedDiscoveryInterface] adds [Invalidate]. *)
Class CachedDiscoveryInterface (C : Type) : Type :=
  { cached_DiscoveryInterface : DiscoveryInterface C;
    Invalidate : C → C }.
#[global] Existing Instance cached_DiscoveryInterface.

(** The calls a collaborator receives. *)
Inductive call : Type := CallServerGroups | CallInvalidate.

#[global] Instance call_eq_dec : EqDecision call.
Proof. solve_decision. Defined.

(** A recording double: it forwards to [inner] and appends every call it
    receives to [calls]. *)
Record spy (C : Type) : Type := Spy { inner : C; calls : list call }.
Arguments Spy {C} inner calls.
Arguments inner {C} s.
Arguments calls {C} s.

#[global] Instance spy_DiscoveryInterface {C} {disco : DiscoveryInterface C}
  : DiscoveryInterface (spy C) :=
  λ s, let '(r, c) := ServerGroups (inner s) in
       (r, Spy c (calls s ++ [CallServerGroups])).

#[global] Instance spy_CachedDiscoveryInterface {C} {cached : CachedDiscoveryInterface C}
  : CachedDiscoveryInterface (spy C) :=
  {| cached_DiscoveryInterface := spy_DiscoveryInterface;
     Invalidate := λ s, Spy (Invalidate (inner s)) (calls s ++ [CallInvalidate]) |}.

(** How often [ServerGroups] was called. *)
Definition serverGroupsCalls {C} (s : spy C) : nat :=
  length (filter (λ c, c = CallServerGroups) (calls s)).

(** A scripted double: the n-th call of [ServerGroups] answers with the
    n-th entry of [script], and with [exhausted] once the script is used
    up. *)
Record scripted : Type :=
  Scripted { script : list (result metav1.APIGroupList);
             exhausted : result metav1.APIGroupList }.

#[global] Instance scripted_DiscoveryInterface : DiscoveryInterface scripted :=
  λ s, match script s with
       | [] => (exhausted s, s)
       | r :: rest => (r, Scripted rest (exhausted s))
       end.

(** A double of the memory-cached client: [ServerGroups] answers from the
    cache and with [ErrCacheEmpty] while it is empty; [Invalidate] refills
    the cache from what the server currently advertises. *)
Record memCache : Type :=
  MemCache { cache : option metav1.APIGroupList;
             server : list metav1.APIGroup }.

#[global] Instance memCache_DiscoveryInterface : DiscoveryInterface memCache :=
  λ s, match cache s with
       | None => (Err ErrCacheEmpty, s)
       | Some groups => (Ok groups, s)
       end.

#[global] Instance memCache_CachedDiscoveryInterface : CachedDiscoveryInterface memCache :=
  {| cached_DiscoveryInterface := memCache_DiscoveryInterface;
     Invalidate := λ s, MemCache (Some {| metav1.Groups := server s |}) (server s) |}.
End discovery.

Module runtime.
(** [runtime.Scheme], of which the converter calls
    [UnsafeConvertToVersion] only; [S] is the state behind the pointer. *)
Class Scheme (S Object : Type) : Type :=
  UnsafeConvertToVersion : S → Object → schema.GroupVersion → result Object * S.

(** A recording double of a scheme: every conversion it is asked for is
    appended to [conversions], as the object and the target version. *)
Record spy (S Object : Type) : Type :=
  Spy { inner : S; conversions : list (Object * schema.GroupVersion) }.
Arguments Spy {S Object} inner conversions.
Arguments inner {S Object} s.
Arguments conversions {S Object} s.

#[global] Instance spy_Scheme {S Object} {scheme : Scheme S Object}
  : Scheme (spy S Object) Object :=
  λ s obj target,
    let '(r, s') := UnsafeConvertToVersion (inner s) obj target in
    (r, Spy s' (conversions s ++ [(obj, target)])).
End runtime.

(** ** The known versions and the negotiation rule *)

Section Negotiation.
(** [schema.GroupVersion.String]; the definitions are parametric in it. *)
Variable gvString : schema.GroupVersion → string.

(** [MetricVersions], the versions accepted by the converter, in order. *)
Variable MetricVersions : list schema.GroupVersion.

(** [init]: [metricVersionsToGV[ver.String()] = ver] for each [ver] of
    [MetricVersions], in order (a later entry overwrites an earlier one
    with the same key). *)
Definition init : gmap string schema.GroupVersion :=
  foldl (λ m ver, <[gvString ver := ver]> m) ∅ MetricVersions.

Definition metricVersionsToGV : gmap string schema.GroupVersion := init.

(** The [for _, version := range apiGroup.Versions] loop of
    [chooseVersion]: the value of [preferredVersion] when it ends. *)
Fixpoint chooseVersion_range (versions : list metav1.GroupVersionForDiscovery)
  : option schema.GroupVersion :=
  match versions with
  | [] => None
  | version :: versions' =>
      match metricVersionsToGV !! metav1.GroupVersion version with
      | Some gv => Some gv
      | None => chooseVersion_range versions'
      end
  end.

(** [apiVersionsFromDiscovery.chooseVersion] *)
Definition chooseVersion (apiGroup : metav1.APIGroup) : result schema.GroupVersion :=
  let key := metav1.GroupVersion (metav1.PreferredVersion apiGroup) in
  let preferredVersion : option schema.GroupVersion :=
    match metricVersionsToGV !! key with
    | Some gv =>
        if negb (String.length key =? 0)%nat then Some gv
        else chooseVersion_range (metav1.Versions apiGroup)
    | None => chooseVersion_range (metav1.Versions apiGroup)
    end in
  match preferredVersion with
  | None => Err (ErrorString "no known available metric versions found")
  | Some gv => Ok gv
  end.

(** The loop of [negotiatePreferredVersion], started with the value
    [preferredVersion] holds on entry. *)
Fixpoint negotiatePreferredVersion_range
  (versions : list metav1.GroupVersionForDiscovery)
  (preferredVersion : option schema.GroupVersion) : option schema.GroupVersion :=
  match versions with
  | [] => preferredVersion
  | version :: versions' =>
      match metricVersionsToGV !! metav1.GroupVersion version with
      | Some gv => Some gv
      | None => negotiatePreferredVersion_range versions' preferredVersion
      end
  end.

(** [MetricConverter.negotiatePreferredVersion] *)
Definition negotiatePreferredVersion (apiGroup : metav1.APIGroup)
  : result schema.GroupVersion :=
  let preferredVersion : option schema.GroupVersion :=
    match metricVersionsToGV !! metav1.GroupVersion (metav1.PreferredVersion apiGroup) with
    | Some gv =>
        if negb (String.length (metav1.GroupVersion (metav1.PreferredVersion apiGroup)) =? 0)%nat
        then Some gv
        else negotiatePreferredVersion_range (metav1.Versions apiGroup) None
    | None => negotiatePreferredVersion_range (metav1.Versions apiGroup) None
    end in
  match preferredVersion with
  | None => Err (ErrorString "no known available metric versions found")
  | Some gv => Ok gv
  end.

(** The version strings the client knows: [ver.String()] for the entries
    of [MetricVersions]. *)
Definition knownVersionStrings : list string := gvString <$> MetricVersions.

(** ** The discovery-backed version source *)

(** [cmint.GroupName] *)
Variable GroupName : string.

(** The [for _, group := range groups.Groups] loop shared by
    [fetchVersions] and [maybeFetchVersions]: the value of [apiGroup] when
    it ends. *)
Fixpoint findGroup (groups : list metav1.APIGroup) : option metav1.APIGroup :=
  match groups with
  | [] => None
  | group :: groups' =>
      if String.eqb (metav1.Name group) GroupName then Some group
      else findGroup groups'
  end.

(** [apiVersionsFromDiscovery]: the client and the cached group version
    ([mu] is left out). *)
Record apiVersionsFromDiscovery (C : Type) : Type :=
  { client : C; prefVersion : option schema.GroupVersion }.
Arguments client {C} _.
Arguments prefVersion {C} _.

(** [NewAvailableAPIsGetter] *)
Definition NewAvailableAPIsGetter {C : Type} (client : C) : apiVersionsFromDiscovery C :=
  {| client := client; prefVersion := None |}.

Section Source.
Context {C : Type} {disco : discovery.DiscoveryInterface C}.

(** [apiVersionsFromDiscovery.fetchVersions] *)
Definition fetchVersions (d : apiVersionsFromDiscovery C)
  : result metav1.APIGroup * apiVersionsFromDiscovery C :=
  let '(r, c) := discovery.ServerGroups (client d) in
  let d := {| client := c; prefVersion := prefVersion d |} in
  match r with
  | Err err => (Err err, d)
  | Ok groups =>
      match findGroup (metav1.Groups groups) with
      | None =>
          (Err (ErrorString ("no custom metrics API (" ++ GroupName ++ ") registered")), d)
      | Some apiGroup => (Ok apiGroup, d)
      end
  end.

(** [apiVersionsFromDiscovery.PreferredVersion] *)
Definition PreferredVersion (d : apiVersionsFromDiscovery C)
  : result schema.GroupVersion * apiVersionsFromDiscovery C :=
  match prefVersion d with
  | Some v => (Ok v, d)
  | None =>
      (* double check, after taking the write lock *)
      match prefVersion d with
      | Some v => (Ok v, d)
      | None =>
          let '(r, d) := fetchVersions d in
          match r with
          | Err err => (Err err, d)
          | Ok groupInfo =>
              match chooseVersion groupInfo with
              | Err err => (Err err, d)
              | Ok v =>
                  let d := {| client := client d; prefVersion := Some v |} in
                  (Ok v, d)
              end
          end
      end
  end.

(** [apiVersionsFromDiscovery.Invalidate] *)
Definition Invalidate (d : apiVersionsFromDiscovery C) : apiVersionsFromDiscovery C :=
  {| client := client d; prefVersion := None |}.

(** [n] calls of [PreferredVersion] in a row: the results in call order
    and the receiver after the last one. *)
Fixpoint PreferredVersion_times (n : nat) (d : apiVersionsFromDiscovery C)
  : list (result schema.GroupVersion) * apiVersionsFromDiscovery C :=
  match n with
  | O => ([], d)
  | S n' =>
      let '(r, d') := PreferredVersion d in
      let '(rs, d'') := PreferredVersion_times n' d' in
      (r :: rs, d'')
  end.
End Source.

(** ** [APIVersionsFromDiscovery] of util.go *)

(** The triple [maybeFetchVersions] makes of an answer of [ServerGroups]
    (used to state its properties). *)
Definition fetched (r : result metav1.APIGroupList)
  : option metav1.APIGroup * bool * option error :=
  match r with
  | Err err => (None, false, Some err)
  | Ok groups =>
      match findGroup (metav1.Groups groups) with
      | None => (None, false, None)
      | Some apiGroup => (Some apiGroup, true, None)
      end
  end.

Section Cached.
Context {C : Type} {cached : discovery.CachedDiscoveryInterface C}.

(** [APIVersionsFromDiscovery.maybeFetchVersions]; the receiver is the
    embedded [CachedDiscoveryInterface]. *)
Definition maybeFetchVersions (d : C)
  : (option metav1.APIGroup * bool * option error) * C :=
  let '(r, d) := discovery.ServerGroups d in
  match r with
  | Err err => ((None, false, Some err), d)
  | Ok groups =>
      match findGroup (metav1.Groups groups) with
      | None => ((None, false, None), d)
      | Some apiGroup => ((Some apiGroup, true, None), d)
      end
  end.

(** [APIVersionsFromDiscovery.Versions] *)
Definition Versions (d : C) : (option metav1.APIGroup * option error) * C :=
  let '((group, present, err), d) := maybeFetchVersions d in
  let '((group, present, err), d) :=
    if bool_decide (err = None) && negb present
       || bool_decide (err = Some ErrCacheEmpty)
    then maybeFetchVersions (discovery.Invalidate d)
    else ((group, present, err), d) in
  match err with
  | Some err => ((None, Some err), d)
  | None =>
      if negb present
      then ((None, Some (ErrorString "no metrics API group registered")), d)
      else ((group, None), d)
  end.
End Cached.

(** ** [MetricConverter] *)

(** [runtime.APIVersionInternal] *)
Variable APIVersionInternal : string.

Section Converter.
Context {S Object : Type} {scheme : runtime.Scheme S Object}.

(** [MetricConverter.UnsafeConvertToVersionVia]; the receiver is the
    converter's [scheme]. *)
Definition UnsafeConvertToVersionVia (c : S) (obj : Object)
  (externalVersion : schema.GroupVersion) : result Object * S :=
  let '(r, c) :=
    runtime.UnsafeConvertToVersion c obj
      {| schema.Group := schema.Group externalVersion;
         schema.Version := APIVersionInternal |} in
  match r with
  | Err err =>
      (Err (ErrorString
              ("failed to convert the given object to the internal version: "
                 ++ Error err)), c)
  | Ok objInt =>
      let '(r, c) := runtime.UnsafeConvertToVersion c objInt externalVersion in
      match r with
      | Err err =>
          (Err (ErrorString
                  ("failed to convert the given object back to the external version: "
                     ++ Error err)), c)
      | Ok objExt => (Ok objExt, c)
      end
  end.
End Converter.

(** [makeAPIGroup] of the converter's test: a group of [GroupName] with
    the given versions and, unless [prefVer] is empty, the given preferred
    version. *)
Definition makeAPIGroup (prefVer : string) (versions : list string) : metav1.APIGroup :=
  let discoVersions :=
    (λ ver, {| metav1.Version := ver;
               metav1.GroupVersion :=
                 gvString {| schema.Group := GroupName; schema.Version := ver |} |})
      <$> versions in
  let discoPrefVer :=
    if negb (String.eqb prefVer "")
    then {| metav1.Version := prefVer;
            metav1.GroupVersion :=
              gvString {| schema.Group := GroupName; schema.Version := prefVer |} |}
    else {| metav1.Version := ""; metav1.GroupVersion := "" |} in
  {| metav1.Name := GroupName;
     metav1.Versions := discoVersions;
     metav1.PreferredVersion := discoPrefVer |}.

End Negotiation.

Arguments client {C} _.
Arguments prefVersion {C} _.

(** ** Conversion through the hub, in the spec's words *)

Section Hub.
Context {S Object : Type} {scheme : runtime.Scheme S Object}.
Variable APIVersionInternal : string.

(** [toPivot(value)]: the conversion of [value] to the pivot (internal)
    version of the target's group. *)
Definition toPivot (c : S) (value : Object) (target : schema.GroupVersion)
  : result Object * S :=
  runtime.UnsafeConvertToVersion c value
    {| schema.Group := schema.Group target; schema.Version := APIVersionInternal |}.

(** [fromPivot(result, B)] *)
Definition fromPivot (c : S) (pivot : Object) (B : schema.GroupVersion)
  : result Object * S :=
  runtime.UnsafeConvertToVersion c pivot B.

(** [toPivot(value)] then [fromPivot(result, B)], stopping at the first
    failure. *)
Definition composeViaPivot (c : S) (value : Object) (B : schema.GroupVersion)
  : result Object * S :=
  let '(r, c) := toPivot c value B in
  match r with
  | Err err => (Err err, c)
  | Ok pivot => fromPivot c pivot B
  end.
End Hub.

(** ** Fixtures for the concrete runs *)

Module fixtures.
(** The group of the custom metrics API, as it appears in the request
    paths of the adapter's README. *)
Definition GroupName : string := "custom.metrics.k8s.io".

Definition APIVersionInternal : string := "__internal".

Definition gv (version : string) : schema.GroupVersion :=
  {| schema.Group := GroupName; schema.Version := version |}.

(** [MetricVersions] of util.go: v1beta2, v1beta1, then the internal
    version. *)
Definition MetricVersions : list schema.GroupVersion :=
  [gv "v1beta2"; gv "v1beta1"; gv APIVersionInternal].

(** A client that knows ["v2"] only, and one that knows ["v1"] and ["v2"]
    in that order. *)
Definition knowsV2 : list schema.GroupVersion := [gv "v2"].
Definition knowsV1V2 : list schema.GroupVersion := [gv "v1"; gv "v2"].

Definition makeAPIGroup : string → list string → metav1.APIGroup :=
  makeAPIGroup schema.String GroupName.

(** A group list that holds one foreign group, and one that holds the
    custom metrics group advertising v1beta1. *)
Definition otherGroups : metav1.APIGroupList :=
  {| metav1.Groups :=
       [ {| metav1.Name := "apps";
            metav1.Versions := [ {| metav1.GroupVersion := "apps/v1"; metav1.Version := "v1" |} ];
            metav1.PreferredVersion := {| metav1.GroupVersion := "apps/v1"; metav1.Version := "v1" |} |} ] |}.

Definition metricsGroups : metav1.APIGroupList :=
  {| metav1.Groups := metav1.Groups otherGroups ++ [makeAPIGroup "v1beta1" ["v1beta1"]] |}.

(** A tagged payload as the converted object, and a scheme that converts
    by replacing the tag. *)
Definition Object : Type := schema.GroupVersion * string.

Definition retag : runtime.Scheme unit Object :=
  λ s obj target, (Ok (target, obj.2), s).

(** A scheme whose internal version cannot carry the payload: converting
    to it empties the payload. *)
Definition lossy : runtime.Scheme unit Object :=
  λ s obj target,
    if String.eqb (schema.Version target) APIVersionInternal
    then (Ok (target, ""), s)
    else (Ok (target, obj.2), s).
End fixtures.

(** ** The rest of [MetricConverter] *)

Module rest.
(** [rest.Result], by what the converter reads of it: [res.Error()] and
    [res.Raw()]. *)
Record Result : Type :=
  { Error : option error; Raw : result (list Byte.byte) }.
End rest.

Module serializer.
(** [serializer.CodecFactory], of which the converter calls
    [UniversalDecoder] only.  A decoder is the function [runtime.Decode]
    applies to the bytes. *)
Class CodecFactory (F Object : Type) : Type :=
  UniversalDecoder : F → list schema.GroupVersion → list Byte.byte → result Object.
End serializer.

(** [AvailableMetricsAPIFunc]: a function without arguments that returns
    a pointer to a [metav1.APIGroup] and an error, with the state [M] it
    closes over. *)
Class AvailableMetricsAPIFunc (M : Type) : Type :=
  callAvailableMetricsAPIFunc : M → (option metav1.APIGroup * option error) * M.

(** What a call comes to: it returns, or it dereferences a [nil] pointer
    and panics. *)
Inductive outcome (T : Type) : Type :=
| Returns (r : result T)
| NilPointerDereference.
Arguments Returns {T} r.
Arguments NilPointerDereference {T}.

Module converter.
(** [MetricConverter], without [internalVersioner], which no method reads. *)
Record MetricConverter (S F M : Type) : Type :=
  { scheme : S; codecs : F; metricsVersions : M }.
Arguments scheme {S F M} _.
Arguments codecs {S F M} _.
Arguments metricsVersions {S F M} _.
End converter.

Section MetricConverter.
Variable gvString : schema.GroupVersion → string.
Variable MetricVersions : list schema.GroupVersion.
Variable APIVersionInternal : string.
Context {S F M Object : Type}.
Context {schemeOf : runtime.Scheme S Object}.
Context {codecsOf : serializer.CodecFactory F Object}.
Context {versionsOf : AvailableMetricsAPIFunc M}.

(** [NewMetricConverter]; [schemeScheme] is [scheme.Scheme] and
    [newCodecFactory] is [serializer.NewCodecFactory(scheme.Scheme)]. *)
Definition NewMetricConverter (schemeScheme : S) (newCodecFactory : F) (apiVersions : M)
  : converter.MetricConverter S F M :=
  {| converter.scheme := schemeScheme;
     converter.codecs := newCodecFactory;
     converter.metricsVersions := apiVersions |}.

(** [MetricConverter.ConvertListOptionsToPreferredVersion] *)
Definition ConvertListOptionsToPreferredVersion
    (c : converter.MetricConverter S F M) (opts : Object)
  : outcome Object * converter.MetricConverter S F M :=
  let '((apiGroup, err), m) := callAvailableMetricsAPIFunc (converter.metricsVersions c) in
  let c := {| converter.scheme := converter.scheme c;
              converter.codecs := converter.codecs c;
              converter.metricsVersions := m |} in
  match err with
  | Some err => (Returns (Err err), c)
  | None =>
      match apiGroup with
      | None => (NilPointerDereference, c)
      | Some apiGroup =>
          match negotiatePreferredVersion gvString MetricVersions apiGroup with
          | Err err => (Returns (Err err), c)
          | Ok preferredVersion =>
              let '(r, s) :=
                UnsafeConvertToVersionVia APIVersionInternal (converter.scheme c) opts
                  preferredVersion in
              let c := {| converter.scheme := s;
                          converter.codecs := converter.codecs c;
                          converter.metricsVersions := converter.metricsVersions c |} in
              match r with
              | Err err => (Returns (Err err), c)
              | Ok paramObj => (Returns (Ok paramObj), c)
              end
          end
      end
  end.

(** [MetricConverter.ConvertResultToVersion] *)
Definition ConvertResultToVersion
    (c : converter.MetricConverter S F M) (res : rest.Result) (gv : schema.GroupVersion)
  : result Object * converter.MetricConverter S F M :=
  match rest.Error res with
  | Some err => (Err err, c)
  | None =>
      match rest.Raw res with
      | Err err => (Err err, c)
      | Ok metricBytes =>
          let decoder := serializer.UniversalDecoder (converter.codecs c) MetricVersions in
          match decoder metricBytes with
          | Err err => (Err err, c)
          | Ok rawMetricObj =>
              let '(r, s) :=
                UnsafeConvertToVersionVia APIVersionInternal (converter.scheme c)
                  rawMetricObj gv in
              let c := {| converter.scheme := s;
                          converter.codecs := converter.codecs c;
                          converter.metricsVersions := converter.metricsVersions c |} in
              match r with
              | Err err => (Err err, c)
              | Ok metricObj => (Ok metricObj, c)
              end
          end
      end
  end.
End MetricConverter.

(** [APIVersionsFromDiscovery.Versions] as the [AvailableMetricsAPIFunc] of
    a converter: the method value [d.Versions]. *)
Definition Versions_AvailableMetricsAPIFunc (GroupName : string) {C : Type}
    {cached : discovery.CachedDiscoveryInterface C} : AvailableMetricsAPIFunc C :=
  Versions GroupName.

(** The [AvailableMetricsAPIFunc] of [TestMetricConverter]: it returns the
    group of the test case. *)
Definition constant_AvailableMetricsAPIFunc : AvailableMetricsAPIFunc metav1.APIGroup :=
  λ group, ((Some group, None), group).

(** An [AvailableMetricsAPIFunc] that returns neither a group nor an
    error. *)
Definition nil_AvailableMetricsAPIFunc : AvailableMetricsAPIFunc unit :=
  λ m, ((None, None), m).

(** A codec factory for the tagged payloads of the fixtures: the body is
    the payload, and it decodes as the first version offered; an empty body
    does not decode. *)
Definition payloadCodec : serializer.CodecFactory unit fixtures.Object :=
  λ _ versions body,
    match versions, body with
    | version :: _, _ :: _ => Ok (version, String.string_of_list_byte body)
    | _, _ => Err (ErrorString "couldn't get version/kind")
    end.

(** ** Sequences of calls on the version source *)

(** The two methods a caller of [apiVersionsFromDiscovery] has. *)
Inductive sourceCall : Type := CallPreferredVersion | CallInvalidateSource.

#[global] Instance sourceCall_eq_dec : EqDecision sourceCall.
Proof. solve_decision. Defined.

Section SourceRuns.
Variable gvString : schema.GroupVersion → string.
Variable MetricVersions : list schema.GroupVersion.
Variable GroupName : string.
Context {C : Type} {disco : discovery.DiscoveryInterface C}.

(** The calls of [calls], one after the other: the results of the
    [PreferredVersion] calls in call order, and the receiver at the end. *)
Fixpoint runSource (calls : list sourceCall) (d : apiVersionsFromDiscovery C)
  : list (result schema.GroupVersion) * apiVersionsFromDiscovery C :=
  match calls with
  | [] => ([], d)
  | CallPreferredVersion :: calls' =>
      let '(r, d') := PreferredVersion gvString MetricVersions GroupName d in
      let '(rs, d'') := runSource calls' d' in
      (r :: rs, d'')
  | CallInvalidateSource :: calls' => runSource calls' (Invalidate d)
  end.
(** The cache holds nothing or a known version. *)
Definition cacheKnown (d : apiVersionsFromDiscovery C) : Prop :=
  ∀ v, prefVersion d = Some v → v ∈ MetricVersions.
End SourceRuns.

(** ** The metrics provider of the end-to-end adapter (package [provider]) *)

Module e2e.

(** A value of Go's [int64] is an integer within its range, and arithmetic
    wraps around. *)
Definition wrap64 (z : Z) : Z := ((z + 2 ^ 63) `mod` 2 ^ 64 - 2 ^ 63)%Z.

Definition mul64 (a b : Z) : Z := wrap64 (a * b).

Module schema.
(** [schema.GroupResource] *)
Record GroupResource : Type := { Group : string; Resource : string }.

(** [schema.GroupVersionResource] *)
Record GroupVersionResource : Type :=
  { gvrGroup : string; gvrVersion : string; gvrResource : string }.

(** [schema.GroupVersionKind] *)
Record GroupVersionKind : Type :=
  { gvkGroup : string; gvkVersion : string; Kind : string }.

(** [GroupResource.WithVersion] *)
Definition WithVersion (gr : GroupResource) (version : string) : GroupVersionResource :=
  {| gvrGroup := Group gr; gvrVersion := version; gvrResource := Resource gr |}.
End schema.

Module cmprovider.
(** [provider.CustomMetricInfo] of the imported custom-metrics-apiserver
    package, with the fields the adapter sets. *)
Record CustomMetricInfo : Type :=
  { GroupResource : schema.GroupResource; Metric : string; Namespaced : bool }.
End cmprovider.

Module custom_metrics.
(** [custom_metrics.ObjectReference], with the fields the adapter sets. *)
Record ObjectReference : Type :=
  { APIVersion : string; Kind : string; Name : string; Namespace : string }.

(** [custom_metrics.MetricValue]; [Time] and [Quantity] stand for
    [metav1.Time] and [resource.Quantity]. *)
Record MetricValue (Time Quantity : Type) : Type :=
  { DescribedObject : ObjectReference;
    MetricName : string;
    Timestamp : Time;
    Value : Quantity }.
Arguments DescribedObject {Time Quantity} _.
Arguments MetricName {Time Quantity} _.
Arguments Timestamp {Time Quantity} _.
Arguments Value {Time Quantity} _.
End custom_metrics.

(** [MetricValue], the body of a write request. *)
Record MetricValue : Type := { Value : Z }.

(** [CustomMetricResource]; [CustomMetricInfo] is the embedded struct. *)
Record CustomMetricResource : Type :=
  { CustomMetricInfo : cmprovider.CustomMetricInfo;
    Name : string;
    Namespace : string }.

#[global] Instance GroupResource_eq_dec : EqDecision schema.GroupResource.
Proof. solve_decision. Defined.
#[global] Instance CustomMetricInfo_eq_dec : EqDecision cmprovider.CustomMetricInfo.
Proof. solve_decision. Defined.
#[global] Instance CustomMetricResource_eq_dec : EqDecision CustomMetricResource.
Proof. solve_decision. Defined.

#[global] Instance CustomMetricInfo_countable : Countable cmprovider.CustomMetricInfo.
Proof.
  refine (inj_countable'
            (λ i, (schema.Group (cmprovider.GroupResource i),
                   schema.Resource (cmprovider.GroupResource i),
                   cmprovider.Metric i, cmprovider.Namespaced i))
            (λ t, let '(g, r, m, n) := t in
                  {| cmprovider.GroupResource := {| schema.Group := g; schema.Resource := r |};
                     cmprovider.Metric := m; cmprovider.Namespaced := n |}) _).
  by intros [[] ? ?].
Defined.

#[global] Instance CustomMetricResource_countable : Countable CustomMetricResource.
Proof.
  refine (inj_countable'
            (λ r, (CustomMetricInfo r, Name r, Namespace r))
            (λ t, let '(i, n, ns) := t in
                  {| CustomMetricInfo := i; Name := n; Namespace := ns |}) _).
  by intros [].
Defined.

Module restful.
(** [restful.Request], by what the handler reads of it: the path
    parameters, the empty string for one that is not part of the route, and
    what [ReadEntity] makes of the body. *)
Record Request : Type :=
  { PathParameter : string → string; ReadEntity : result MetricValue }.

(** [restful.Response], by what the handler writes to it: the status and
    the message of each [WriteErrorString], in order. *)
Definition Response : Type := list (nat * string).

Definition WriteErrorString (response : Response) (status : nat) (msg : string)
  : Response :=
  response ++ [(status, msg)].
End restful.

(** [http.StatusBadRequest] *)
Definition StatusBadRequest : nat := 400.

(** [resource.Format] *)
Inductive Format : Type := DecimalExponent | BinarySI | DecimalSI.

(** [E2EProvider] *)
Record E2EProvider (Client Mapper : Type) : Type :=
  { client : Client;
    mapper : Mapper;
    values : gmap CustomMetricResource Z }.
Arguments client {Client Mapper} _.
Arguments mapper {Client Mapper} _.
Arguments values {Client Mapper} _.

(** [NewE2EProvider] *)
Definition NewE2EProvider {Client Mapper : Type} (client : Client) (mapper : Mapper)
  : E2EProvider Client Mapper :=
  {| client := client; mapper := mapper; values := ∅ |}.

Section Provider.
Context {Client Mapper Clock Time Quantity : Type}.

(** What the adapter calls of the packages it imports:
    [schema.ParseGroupResource]; [CustomMetricInfo.Normalized], which gives
    the normalized info, the singular resource name and an error;
    [RESTMapper.KindFor]; [provider.NewMetricNotFoundForError];
    [resource.NewMilliQuantity]; [time.Now], which reads the clock; and
    [runtime.APIVersionInternal]. *)
Variable ParseGroupResource : string → schema.GroupResource.
Variable Normalized :
  cmprovider.CustomMetricInfo → Mapper → cmprovider.CustomMetricInfo * string * option error.
Variable KindFor : Mapper → schema.GroupVersionResource → result schema.GroupVersionKind.
Variable NewMetricNotFoundForError : schema.GroupResource → string → string → error.
Variable NewMilliQuantity : Z → Format → Quantity.
Variable Now : Clock → Time * Clock.
Variable APIVersionInternal : string.

(** [E2EProvider.updateResource]; the calls of [glog.Errorf] are left out. *)
Definition updateResource (p : E2EProvider Client Mapper)
    (request : restful.Request) (response : restful.Response)
  : E2EProvider Client Mapper * restful.Response :=
  let namespace := restful.PathParameter request "namespace" in
  let resourceType := restful.PathParameter request "resourceType" in
  let namespaced :=
    if (0 <? String.length namespace)%nat || String.eqb resourceType "namespaces"
    then true else false in
  let name := restful.PathParameter request "name" in
  let metricName := restful.PathParameter request "metric" in
  match restful.ReadEntity request with
  | Err err => (p, restful.WriteErrorString response StatusBadRequest (Error err))
  | Ok value =>
      let groupResource := ParseGroupResource resourceType in
      let info :=
        {| cmprovider.GroupResource := groupResource;
           cmprovider.Metric := metricName;
           cmprovider.Namespaced := namespaced |} in
      let '(info, _, err) := Normalized info (mapper p) in
      let metricInfo :=
        {| CustomMetricInfo := info; Name := name; Namespace := namespace |} in
      ({| client := client p; mapper := mapper p;
          values := <[metricInfo := Value value]> (values p) |},
       response)
  end.

(** [E2EProvider.valueFor] *)
Definition valueFor (p : E2EProvider Client Mapper) (groupResource : schema.GroupResource)
    (metricName namespace name : string) (namespaced : bool) : result Z :=
  let info :=
    {| cmprovider.GroupResource := groupResource;
       cmprovider.Metric := metricName;
       cmprovider.Namespaced := namespaced |} in
  let '(info, _, err) := Normalized info (mapper p) in
  let metricInfo :=
    {| CustomMetricInfo := info; Name := name; Namespace := namespace |} in
  match values p !! metricInfo with
  | None => Err (NewMetricNotFoundForError groupResource metricName name)
  | Some value => Ok value
  end.

(** [E2EProvider.metricFor] *)
Definition metricFor (p : E2EProvider Client Mapper) (clock : Clock) (value : Z)
    (groupResource : schema.GroupResource) (namespace name metricName : string)
  : result (custom_metrics.MetricValue Time Quantity) * Clock :=
  match KindFor (mapper p) (schema.WithVersion groupResource "") with
  | Err err => (Err err, clock)
  | Ok kind =>
      let '(now, clock) := Now clock in
      (Ok {| custom_metrics.DescribedObject :=
               {| custom_metrics.APIVersion :=
                    schema.Group groupResource +:+ "/" +:+ APIVersionInternal;
                  custom_metrics.Kind := schema.Kind kind;
                  custom_metrics.Name := name;
                  custom_metrics.Namespace := namespace |};
             custom_metrics.MetricName := metricName;
             custom_metrics.Timestamp := now;
             custom_metrics.Value := NewMilliQuantity (mul64 value 1000) DecimalSI |},
       clock)
  end.

(** [E2EProvider.GetRootScopedMetricByName] *)
Definition GetRootScopedMetricByName (p : E2EProvider Client Mapper) (clock : Clock)
    (groupResource : schema.GroupResource) (name metricName : string)
  : result (custom_metrics.MetricValue Time Quantity) * Clock :=
  match valueFor p groupResource metricName "" name false with
  | Err err => (Err err, clock)
  | Ok value => metricFor p clock value groupResource "" name metricName
  end.

(** [E2EProvider.GetNamespacedMetricByName] *)
Definition GetNamespacedMetricByName (p : E2EProvider Client Mapper) (clock : Clock)
    (groupResource : schema.GroupResource) (namespace name metricName : string)
  : result (custom_metrics.MetricValue Time Quantity) * Clock :=
  match valueFor p groupResource metricName namespace name true with
  | Err err => (Err err, clock)
  | Ok value => metricFor p clock value groupResource namespace name metricName
  end.
End Provider.

(** [E2EProvider.ListAllMetrics].  Go leaves the order of a [range] over a
    map open; here the infos come in the order of [elements]. *)
Definition ListAllMetrics {Client Mapper : Type} (p : E2EProvider Client Mapper)
  : list cmprovider.CustomMetricInfo :=
  let infos : gset cmprovider.CustomMetricInfo :=
    set_map CustomMetricInfo (dom (values p)) in
  elements infos.

(** A request to one of the three routes of [WebService]. *)
Definition request (namespace resourceType name metric : string)
    (body : result MetricValue) : restful.Request :=
  {| restful.PathParameter :=
       λ parameter,
         if String.eqb parameter "namespace" then namespace
         else if String.eqb parameter "resourceType" then resourceType
         else if String.eqb parameter "name" then name
         else if String.eqb parameter "metric" then metric
         else "";
     restful.ReadEntity := body |}.

(** Doubles for the concrete runs: resources are taken as they are written;
    the mapper knows the kind of pods and of namespaces; a not-found error
    is known by its message; a quantity is its number of milli-units; the
    clock counts its readings. *)
Definition plainParse (resourceType : string) : schema.GroupResource :=
  {| schema.Group := ""; schema.Resource := resourceType |}.

Definition plainNormalized (info : cmprovider.CustomMetricInfo) (mapper : unit)
  : cmprovider.CustomMetricInfo * string * option error :=
  (info, schema.Resource (cmprovider.GroupResource info), None).

Definition plainKindFor (mapper : unit) (resource : schema.GroupVersionResource)
  : result schema.GroupVersionKind :=
  if String.eqb (schema.gvrResource resource) "pods"
  then Ok {| schema.gvkGroup := ""; schema.gvkVersion := "v1"; schema.Kind := "Pod" |}
  else if String.eqb (schema.gvrResource resource) "namespaces"
  then Ok {| schema.gvkGroup := ""; schema.gvkVersion := "v1"; schema.Kind := "Namespace" |}
  else Err (ErrorString "no matches for resource").

Definition plainNotFound (groupResource : schema.GroupResource) (metricName name : string)
  : error :=
  ErrorString ("the server could not find the metric " +:+ metricName +:+ " for "
                 +:+ schema.Resource groupResource +:+ " " +:+ name).

Definition plainMilli (milli : Z) (format : Format) : Z := milli.

Definition tick (clock : nat) : nat * nat := (clock, S clock).
End e2e.

(** * Properties *)

(** ** The table of known versions *)

(** Every entry of the table maps the rendering of a known version to that
    version. *)
Lemma metricVersionsToGV_Some {gvString MetricVersions}
    (key : string) (gv : schema.GroupVersion) :
  metricVersionsToGV gvString MetricVersions !! key = Some gv →
  gv ∈ MetricVersions ∧ gvString gv = key.
Proof.
  unfold metricVersionsToGV, init.
  induction MetricVersions as [|ver vers IH] using rev_ind; simpl.
  - by rewrite lookup_empty.
  - rewrite foldl_app. simpl. rewrite lookup_insert, elem_of_app.
    case_decide as Hk.
    + intros [= <-]. split; [right; by apply list_elem_of_singleton | done].
    + intros Hl. destruct (IH Hl) as [Hin Hs]. by split; [left|].
Qed.

(** A key is in the table exactly when it renders a known version. *)
Lemma metricVersionsToGV_is_Some {gvString MetricVersions} (key : string) :
  is_Some (metricVersionsToGV gvString MetricVersions !! key)
  ↔ key ∈ knownVersionStrings gvString MetricVersions.
Proof.
  unfold metricVersionsToGV, init, knownVersionStrings.
  induction MetricVersions as [|ver vers IH] using rev_ind; simpl.
  - rewrite lookup_empty. split; [by intros [? ?] | by intros ?%elem_of_nil].
  - rewrite foldl_app, fmap_app, elem_of_app. simpl.
    rewrite lookup_insert, list_elem_of_singleton.
    case_decide as Hk.
    + split; [by right | by eauto].
    + rewrite IH. split; [by left | by intros [?|?]].
Qed.

Lemma metricVersionsToGV_None {gvString MetricVersions} (key : string) :
  metricVersionsToGV gvString MetricVersions !! key = None
  ↔ key ∉ knownVersionStrings gvString MetricVersions.
Proof.
  rewrite <- metricVersionsToGV_is_Some, eq_None_not_Some. done.
Qed.

Section NegotiationFacts.
Variable gvString : schema.GroupVersion → string.
Variable MetricVersions : list schema.GroupVersion.

Local Abbreviation known := (knownVersionStrings gvString MetricVersions).
Local Abbreviation table := (metricVersionsToGV gvString MetricVersions).
Local Abbreviation chooseVersion := (chooseVersion gvString MetricVersions).
Local Abbreviation negotiatePreferredVersion :=
  (negotiatePreferredVersion gvString MetricVersions).

(** The two loops leave the same value behind. *)
Lemma negotiatePreferredVersion_range_None versions :
  negotiatePreferredVersion_range gvString MetricVersions versions None
  = chooseVersion_range gvString MetricVersions versions.
Proof.
  induction versions as [|version versions IH]; simpl; [done|].
  by destruct (table !! metav1.GroupVersion version).
Qed.

(** The loop skips a prefix of unknown versions. *)
Lemma chooseVersion_range_skip before rest :
  Forall (λ v, metav1.GroupVersion v ∉ known) before →
  chooseVersion_range gvString MetricVersions (before ++ rest)
  = chooseVersion_range gvString MetricVersions rest.
Proof.
  induction 1 as [|v before Hv _ IH]; simpl; [done|].
  apply metricVersionsToGV_None in Hv. by rewrite Hv.
Qed.

Lemma chooseVersion_range_unknown versions :
  Forall (λ v, metav1.GroupVersion v ∉ known) versions →
  chooseVersion_range gvString MetricVersions versions = None.
Proof.
  intros H. rewrite <- (app_nil_r versions).
  by rewrite chooseVersion_range_skip.
Qed.

(** When the declared preference is empty or unknown, [chooseVersion] is
    decided by the loop alone. *)
Lemma chooseVersion_fallback (apiGroup : metav1.APIGroup) :
  metav1.GroupVersion (metav1.PreferredVersion apiGroup) = ""
  ∨ metav1.GroupVersion (metav1.PreferredVersion apiGroup) ∉ known →
  chooseVersion apiGroup
  = match chooseVersion_range gvString MetricVersions (metav1.Versions apiGroup) with
    | None => Err (ErrorString "no known available metric versions found")
    | Some gv => Ok gv
    end.
Proof.
  unfold chooseVersion. intros [Hempty | Hunknown].
  - rewrite Hempty. simpl. by destruct (table !! "").
  - apply metricVersionsToGV_None in Hunknown. by rewrite Hunknown.
Qed.

(** The same for [negotiatePreferredVersion]. *)
Lemma negotiatePreferredVersion_fallback (apiGroup : metav1.APIGroup) :
  metav1.GroupVersion (metav1.PreferredVersion apiGroup) = ""
  ∨ metav1.GroupVersion (metav1.PreferredVersion apiGroup) ∉ known →
  negotiatePreferredVersion apiGroup
  = match chooseVersion_range gvString MetricVersions (metav1.Versions apiGroup) with
    | None => Err (ErrorString "no known available metric versions found")
    | Some gv => Ok gv
    end.
Proof.
  unfold negotiatePreferredVersion. rewrite negotiatePreferredVersion_range_None.
  intros [Hempty | Hunknown].
  - rewrite Hempty. simpl. by destruct (table !! "").
  - apply metricVersionsToGV_None in Hunknown. by rewrite Hunknown.
Qed.

(** ** C9 *)

(** C9: the two implementations of the negotiation rule, [chooseVersion]
    of the discovery-backed version source and [negotiatePreferredVersion]
    of [MetricConverter], compute the same result for every API group:
    the same chosen version, or the same error. *)
Theorem chooseVersion_negotiatePreferredVersion (apiGroup : metav1.APIGroup) :
  chooseVersion apiGroup = negotiatePreferredVersion apiGroup.
Proof.
  unfold chooseVersion, negotiatePreferredVersion.
  rewrite negotiatePreferredVersion_range_None.
  reflexivity.
Qed.

(** ** C1 *)

(** C1: when the declared preferred version of a group is non-empty and is
    one of the versions the client knows, both [chooseVersion] and
    [negotiatePreferredVersion] return exactly that version, whatever the
    group's name and whatever its advertised version list (contents and
    order). *)
Theorem declared_preference_selected (pref : metav1.GroupVersionForDiscovery) :
  metav1.GroupVersion pref ≠ "" →
  metav1.GroupVersion pref ∈ known →
  ∃ gv, gv ∈ MetricVersions ∧ gvString gv = metav1.GroupVersion pref ∧
    ∀ name versions,
      let apiGroup :=
        {| metav1.Name := name; metav1.Versions := versions;
           metav1.PreferredVersion := pref |} in
      chooseVersion apiGroup = Ok gv ∧ negotiatePreferredVersion apiGroup = Ok gv.
Proof.
  intros Hne Hknown.
  apply metricVersionsToGV_is_Some in Hknown as [gv Hgv].
  exists gv. destruct (metricVersionsToGV_Some _ _ Hgv) as [Hin Hs].
  split; [done|]. split; [done|].
  intros name versions apiGroup.
  unfold chooseVersion, negotiatePreferredVersion. subst apiGroup. simpl.
  rewrite Hgv.
  destruct (metav1.GroupVersion pref) as [|a rest]; [done|]. by split.
Qed.

(** ** C2 *)

(** C2: when a group declares no preferred version, or one the client does
    not know, both functions return the first entry of the advertised
    list, in the order the server supplied it, that the client knows; when
    no advertised entry is known they return the
    no-known-available-versions error. *)
Theorem first_known_advertised_selected (apiGroup : metav1.APIGroup) :
  metav1.GroupVersion (metav1.PreferredVersion apiGroup) = ""
  ∨ metav1.GroupVersion (metav1.PreferredVersion apiGroup) ∉ known →
  (∀ before version after,
      metav1.Versions apiGroup = before ++ version :: after →
      Forall (λ v, metav1.GroupVersion v ∉ known) before →
      metav1.GroupVersion version ∈ known →
      ∃ gv, gv ∈ MetricVersions ∧ gvString gv = metav1.GroupVersion version ∧
        chooseVersion apiGroup = Ok gv ∧ negotiatePreferredVersion apiGroup = Ok gv)
  ∧ (Forall (λ v, metav1.GroupVersion v ∉ known) (metav1.Versions apiGroup) →
     chooseVersion apiGroup
     = Err (ErrorString "no known available metric versions found")
     ∧ negotiatePreferredVersion apiGroup
       = Err (ErrorString "no known available metric versions found")).
Proof.
  intros Hpref.
  rewrite (chooseVersion_fallback _ Hpref), (negotiatePreferredVersion_fallback _ Hpref).
  split.
  - intros before version after Hvs Hbefore Hversion.
    apply metricVersionsToGV_is_Some in Hversion as [gv Hgv].
    exists gv. destruct (metricVersionsToGV_Some _ _ Hgv) as [Hin Hs].
    rewrite Hvs, chooseVersion_range_skip by done. simpl. by rewrite Hgv.
  - intros Hnone. by rewrite chooseVersion_range_unknown.
Qed.
End NegotiationFacts.

(** Witness of C1 on the first case of [TestMetricConverter]: the server
    prefers v1beta1, which the client knows. *)
Lemma declared_preference_selected_witness :
  let pref := metav1.PreferredVersion (fixtures.makeAPIGroup "v1beta1" ["v1beta2"]) in
  metav1.GroupVersion pref ≠ ""
  ∧ metav1.GroupVersion pref ∈ knownVersionStrings schema.String fixtures.MetricVersions
  ∧ ∃ gv, gv ∈ fixtures.MetricVersions
      ∧ schema.String gv = metav1.GroupVersion pref
      ∧ ∀ name versions,
          let apiGroup :=
            {| metav1.Name := name; metav1.Versions := versions;
               metav1.PreferredVersion := pref |} in
          chooseVersion schema.String fixtures.MetricVersions apiGroup = Ok gv
          ∧ negotiatePreferredVersion schema.String fixtures.MetricVersions apiGroup = Ok gv.
Proof.
  assert (metav1.GroupVersion
            (metav1.PreferredVersion (fixtures.makeAPIGroup "v1beta1" ["v1beta2"])) ≠ "")
    as Hne by (vm_compute; discriminate).
  assert (metav1.GroupVersion
            (metav1.PreferredVersion (fixtures.makeAPIGroup "v1beta1" ["v1beta2"]))
          ∈ knownVersionStrings schema.String fixtures.MetricVersions)
    as Hknown by (apply elem_of_cons; right; apply elem_of_cons; left; reflexivity).
  split; [exact Hne|]. split; [exact Hknown|].
  exact (declared_preference_selected schema.String fixtures.MetricVersions _ Hne Hknown).
Defined.

(** The second case of [TestMetricConverter]: no declared preference, the
    first advertised version wins. *)
Example first_available_when_no_preferred :
  negotiatePreferredVersion schema.String fixtures.MetricVersions
    (fixtures.makeAPIGroup "" ["v1beta2"; "v1beta1"])
  = Ok (fixtures.gv "v1beta2").
Proof. reflexivity. Qed.

(** The order of the server's list decides, not the order of the client's. *)
Example server_order_wins :
  chooseVersion schema.String fixtures.knowsV1V2 (fixtures.makeAPIGroup "" ["v2"; "v1"])
  = Ok (fixtures.gv "v2").
Proof. reflexivity. Qed.

(** Witness of C2 on a group without declared preference. *)
Lemma first_known_advertised_selected_witness :
  let apiGroup := fixtures.makeAPIGroup "" ["v1beta2"; "v1beta1"] in
  let known := knownVersionStrings schema.String fixtures.MetricVersions in
  (metav1.GroupVersion (metav1.PreferredVersion apiGroup) = ""
   ∨ metav1.GroupVersion (metav1.PreferredVersion apiGroup) ∉ known)
  ∧ (∀ before version after,
        metav1.Versions apiGroup = before ++ version :: after →
        Forall (λ v, metav1.GroupVersion v ∉ known) before →
        metav1.GroupVersion version ∈ known →
        ∃ gv, gv ∈ fixtures.MetricVersions
          ∧ schema.String gv = metav1.GroupVersion version
          ∧ chooseVersion schema.String fixtures.MetricVersions apiGroup = Ok gv
          ∧ negotiatePreferredVersion schema.String fixtures.MetricVersions apiGroup = Ok gv)
  ∧ (Forall (λ v, metav1.GroupVersion v ∉ known) (metav1.Versions apiGroup) →
     chooseVersion schema.String fixtures.MetricVersions apiGroup
     = Err (ErrorString "no known available metric versions found")
     ∧ negotiatePreferredVersion schema.String fixtures.MetricVersions apiGroup
       = Err (ErrorString "no known available metric versions found")).
Proof.
  assert (metav1.GroupVersion
            (metav1.PreferredVersion (fixtures.makeAPIGroup "" ["v1beta2"; "v1beta1"])) = ""
          ∨ metav1.GroupVersion
              (metav1.PreferredVersion (fixtures.makeAPIGroup "" ["v1beta2"; "v1beta1"]))
            ∉ knownVersionStrings schema.String fixtures.MetricVersions)
    as Hpref by (left; reflexivity).
  split; [exact Hpref|].
  exact (first_known_advertised_selected schema.String fixtures.MetricVersions _ Hpref).
Defined.

(** ** C4 *)

(** C4, refuted as stated: for the group that declares preferred ["v1"] and
    advertises [["v1"; "v2"]], a client that knows only ["v2"] does not get
    an error.  The declared preference is unknown, so the advertised list is
    scanned, and its entry ["v2"] is known and returned. *)
Lemma declared_unknown_scenario_not_an_error :
  let apiGroup := fixtures.makeAPIGroup "v1" ["v1"; "v2"] in
  chooseVersion schema.String fixtures.knowsV2 apiGroup = Ok (fixtures.gv "v2")
  ∧ negotiatePreferredVersion schema.String fixtures.knowsV2 apiGroup = Ok (fixtures.gv "v2")
  ∧ ¬ (∃ err, chooseVersion schema.String fixtures.knowsV2 apiGroup = Err err)
  ∧ ¬ (∃ err, negotiatePreferredVersion schema.String fixtures.knowsV2 apiGroup = Err err).
Proof.
  repeat split; try reflexivity; intros [err Herr]; vm_compute in Herr; discriminate.
Qed.

(** C4, amended: for a group that declares preferred ["v1"] and advertises
    [["v1"; "v2"]], a client whose known set holds only ["v2"] negotiates
    ["v2"]: the unknown declared preference is passed over and the first
    advertised version the client knows is selected.  This holds for every
    rendering of versions that tells ["v1"] from ["v2"]. *)
Theorem declared_unknown_falls_back_to_advertised
    (gvString : schema.GroupVersion → string) (GroupName : string) :
  let v1 := {| schema.Group := GroupName; schema.Version := "v1" |} in
  let v2 := {| schema.Group := GroupName; schema.Version := "v2" |} in
  gvString v1 ≠ gvString v2 →
  chooseVersion gvString [v2] (makeAPIGroup gvString GroupName "v1" ["v1"; "v2"]) = Ok v2
  ∧ negotiatePreferredVersion gvString [v2]
      (makeAPIGroup gvString GroupName "v1" ["v1"; "v2"]) = Ok v2.
Proof.
  intros v1 v2 Hne.
  unfold chooseVersion, negotiatePreferredVersion, metricVersionsToGV, init.
  cbn -[String.eqb String.length insert lookup empty].
  fold v1 v2.
  rewrite !(lookup_insert_ne _ (gvString v2) (gvString v1)) by congruence.
  rewrite !lookup_empty, !lookup_insert_eq. done.
Qed.

Lemma declared_unknown_falls_back_to_advertised_witness :
  schema.String (fixtures.gv "v1") ≠ schema.String (fixtures.gv "v2")
  ∧ chooseVersion schema.String fixtures.knowsV2 (fixtures.makeAPIGroup "v1" ["v1"; "v2"])
    = Ok (fixtures.gv "v2")
  ∧ negotiatePreferredVersion schema.String fixtures.knowsV2
      (fixtures.makeAPIGroup "v1" ["v1"; "v2"])
    = Ok (fixtures.gv "v2").
Proof.
  assert (schema.String (fixtures.gv "v1") ≠ schema.String (fixtures.gv "v2"))
    as Hne by (vm_compute; discriminate).
  split; [exact Hne|].
  exact (declared_unknown_falls_back_to_advertised schema.String fixtures.GroupName Hne).
Defined.

(** ** The cache of the discovery-backed version source *)

Section SourceFacts.
Variable gvString : schema.GroupVersion → string.
Variable MetricVersions : list schema.GroupVersion.
Variable GroupName : string.
Context {C : Type} {disco : discovery.DiscoveryInterface C}.

Local Abbreviation source := (apiVersionsFromDiscovery (discovery.spy C)).
Local Abbreviation fetchVersions := (fetchVersions GroupName (C := discovery.spy C)).
Local Abbreviation PreferredVersion :=
  (PreferredVersion gvString MetricVersions GroupName (C := discovery.spy C)).
Local Abbreviation PreferredVersion_times :=
  (PreferredVersion_times gvString MetricVersions GroupName (C := discovery.spy C)).
Local Abbreviation notRegistered :=
  (ErrorString ("no custom metrics API (" +:+ GroupName +:+ ") registered")).

Lemma serverGroupsCalls_snoc (s : discovery.spy C) (c : C) :
  discovery.serverGroupsCalls
    (discovery.Spy c (discovery.calls s ++ [discovery.CallServerGroups]))
  = S (discovery.serverGroupsCalls s).
Proof.
  unfold discovery.serverGroupsCalls. simpl.
  rewrite filter_app, length_app. simpl. lia.
Qed.

(** [fetchVersions] calls [ServerGroups] once and leaves the cache alone;
    its result is read off the collaborator's answer. *)
Lemma fetchVersions_spec (d : source) :
  ∃ r c,
    discovery.ServerGroups (discovery.inner (client d)) = (r, c)
    ∧ fetchVersions d
      = (match r with
         | Err err => Err err
         | Ok groups =>
             match findGroup GroupName (metav1.Groups groups) with
             | None => Err notRegistered
             | Some apiGroup => Ok apiGroup
             end
         end,
         {| client :=
              discovery.Spy c
                (discovery.calls (client d) ++ [discovery.CallServerGroups]);
            prefVersion := prefVersion d |}).
Proof.
  unfold fetchVersions.
  unfold discovery.ServerGroups at 2, discovery.spy_DiscoveryInterface.
  destruct (discovery.ServerGroups (discovery.inner (client d))) as [r c].
  exists r, c. split; [done|].
  destruct r as [groups|err]; [|done].
  by destruct (findGroup GroupName (metav1.Groups groups)).
Qed.

(** A filled cache answers without touching anything. *)
Lemma PreferredVersion_cached (d : source) (v : schema.GroupVersion) :
  prefVersion d = Some v → PreferredVersion d = (Ok v, d).
Proof. unfold PreferredVersion. by intros ->. Qed.

(** A successful call leaves the returned version in the cache and has
    called discovery at most once. *)
Lemma PreferredVersion_Ok (d d' : source) (v : schema.GroupVersion) :
  PreferredVersion d = (Ok v, d') →
  prefVersion d' = Some v
  ∧ discovery.serverGroupsCalls (client d)
    ≤ discovery.serverGroupsCalls (client d')
    ≤ S (discovery.serverGroupsCalls (client d)).
Proof.
  unfold PreferredVersion.
  destruct (prefVersion d) as [v0|] eqn:Hcache.
  - intros [= <- <-]. split; [done | lia].
  - destruct (fetchVersions_spec d) as (r & c & _ & ->).
    destruct r as [groups|err]; [|done].
    destruct (findGroup GroupName (metav1.Groups groups)) as [apiGroup|]; [|done].
    destruct (chooseVersion gvString MetricVersions apiGroup) as [v1|err]; [|done].
    intros [= <- <-]. simpl. split; [done|].
    rewrite serverGroupsCalls_snoc. lia.
Qed.

(** A failed call found the cache empty, left it empty and called
    discovery exactly once; the error is the collaborator's, or the group
    is not registered, or no advertised version is known. *)
Lemma PreferredVersion_Err (d d' : source) (err : error) :
  PreferredVersion d = (Err err, d') →
  prefVersion d = None
  ∧ ∃ r c,
      discovery.ServerGroups (discovery.inner (client d)) = (r, c)
      ∧ d' = {| client :=
                  discovery.Spy c
                    (discovery.calls (client d) ++ [discovery.CallServerGroups]);
                prefVersion := None |}
      ∧ (r = Err err
         ∨ (∃ groups, r = Ok groups
              ∧ findGroup GroupName (metav1.Groups groups) = None
              ∧ err = notRegistered)
         ∨ (∃ groups apiGroup, r = Ok groups
              ∧ findGroup GroupName (metav1.Groups groups) = Some apiGroup
              ∧ chooseVersion gvString MetricVersions apiGroup = Err err)).
Proof.
  unfold PreferredVersion.
  destruct (prefVersion d) as [v0|] eqn:Hcache; [done|].
  destruct (fetchVersions_spec d) as (r & c & Hr & ->).
  rewrite Hcache. intros Hcall. split; [done|]. exists r, c. split; [done|].
  destruct r as [groups|err0].
  - destruct (findGroup GroupName (metav1.Groups groups)) as [apiGroup|] eqn:Hfind.
    + destruct (chooseVersion gvString MetricVersions apiGroup) as [v1|err1] eqn:Hchoose;
        [done|].
      injection Hcall as <- <-. split; [done|]. right; right. by exists groups, apiGroup.
    + injection Hcall as <- <-. split; [done|]. right; left. by exists groups.
  - injection Hcall as <- <-. split; [done|]. by left.
Qed.

(** Once the cache is filled, any number of calls return the cached
    version and change nothing. *)
Lemma PreferredVersion_times_cached (n : nat) (d : source) (v : schema.GroupVersion) :
  prefVersion d = Some v →
  PreferredVersion_times n d = (replicate n (Ok v), d).
Proof.
  intros Hcache. induction n as [|n IH]; simpl; [done|].
  rewrite (PreferredVersion_cached d v Hcache).
  fold (PreferredVersion_times n d). by rewrite IH.
Qed.

(** With an empty cache, [PreferredVersion] calls [ServerGroups] exactly
    once, whatever comes of it. *)
Lemma PreferredVersion_miss (d : source) :
  prefVersion d = None →
  discovery.calls (client (PreferredVersion d).2)
  = discovery.calls (client d) ++ [discovery.CallServerGroups].
Proof.
  intros Hcache. unfold PreferredVersion. rewrite Hcache.
  destruct (fetchVersions_spec d) as (r & c & _ & ->).
  destruct r as [groups|err];
    [destruct (findGroup GroupName (metav1.Groups groups)) as [apiGroup|];
     [destruct (chooseVersion gvString MetricVersions apiGroup)|]|];
    done.
Qed.

Lemma serverGroupsCalls_calls_snoc (s s' : discovery.spy C) :
  discovery.calls s' = discovery.calls s ++ [discovery.CallServerGroups] →
  discovery.serverGroupsCalls s' = S (discovery.serverGroupsCalls s).
Proof.
  unfold discovery.serverGroupsCalls. intros ->.
  rewrite filter_app, length_app. simpl. lia.
Qed.

(** ** C6 *)

(** C6, amended: in every sequence of [PreferredVersion] calls with no
    [Invalidate] in between, the results are a run of errors followed by
    repetitions of one version, so every call after the first successful
    one returns the identical cached value; discovery is invoked once by
    each failed call and at most once more, by the first successful call.
    In particular it is invoked at most once when no call fails. *)
Theorem PreferredVersion_repeated (n : nat) (d : source) :
  ∃ (errs : list error) (v : schema.GroupVersion) (m : nat),
    (PreferredVersion_times n d).1 = (Err <$> errs) ++ replicate m (Ok v)
    ∧ length errs + m = n
    ∧ discovery.serverGroupsCalls (client d) + length errs
      ≤ discovery.serverGroupsCalls (client (PreferredVersion_times n d).2)
      ≤ discovery.serverGroupsCalls (client d) + length errs + 1.
Proof.
  revert d. induction n as [|n IH]; intros d.
  - exists [], {| schema.Group := ""; schema.Version := "" |}, 0. simpl.
    split; [done|]. split; lia.
  - simpl. destruct (PreferredVersion d) as [[v|err] d1] eqn:Hcall.
    + apply PreferredVersion_Ok in Hcall as [Hcache Hcalls].
      fold (PreferredVersion_times n d1).
      rewrite (PreferredVersion_times_cached n d1 v Hcache). simpl.
      exists [], v, (S n). simpl. split; [done|]. split; lia.
    + apply PreferredVersion_Err in Hcall as (_ & r & c & _ & -> & _).
      fold (PreferredVersion_times n).
      match goal with
      | |- context [PreferredVersion_times n ?d1] =>
          destruct (IH d1) as (errs & v & m & Hrs & Hlen & Hcalls);
          destruct (PreferredVersion_times n d1) as [rs dn]
      end.
      simpl in *. rewrite serverGroupsCalls_snoc in Hcalls.
      exists (err :: errs), v, m. simpl. rewrite Hrs.
      split; [done|]. split; lia.
Qed.

(** The calls that follow a success return the same version, leave the
    source as it is and reach discovery no more. *)
Lemma PreferredVersion_after_success (n : nat) (d d1 : source) (v : schema.GroupVersion) :
  PreferredVersion d = (Ok v, d1) →
  PreferredVersion_times n d1 = (replicate n (Ok v), d1).
Proof.
  intros [Hcache _]%PreferredVersion_Ok.
  by apply PreferredVersion_times_cached.
Qed.

(** ** C7 *)

(** C7: whatever the cache holds, [Invalidate] empties it, a second
    [Invalidate] changes nothing more, and the [PreferredVersion] call that
    follows invokes discovery: exactly one [ServerGroups] call is added to
    those the collaborator had received. *)
Theorem Invalidate_forces_discovery (d : source) :
  prefVersion (Invalidate d) = None
  ∧ Invalidate (Invalidate d) = Invalidate d
  ∧ discovery.calls (client (PreferredVersion (Invalidate d)).2)
    = discovery.calls (client d) ++ [discovery.CallServerGroups]
  ∧ discovery.serverGroupsCalls (client (PreferredVersion (Invalidate d)).2)
    = S (discovery.serverGroupsCalls (client d)).
Proof.
  split; [done|]. split; [done|].
  pose proof (PreferredVersion_miss (Invalidate d) eq_refl) as Hcalls.
  split; [exact Hcalls|].
  by apply (serverGroupsCalls_calls_snoc (client d)).
Qed.

(** ** C8 *)

(** C8: whenever [PreferredVersion] returns an error, the cache is as it
    was before the call, that is empty, and discovery was called once; the
    error is the one of the discovery call, or the group was absent from
    the advertised groups, or negotiation found no known version.  The
    call that follows therefore invokes discovery again. *)
Theorem PreferredVersion_error_caches_nothing (d d' : source) (err : error) :
  PreferredVersion d = (Err err, d') →
  prefVersion d' = prefVersion d
  ∧ prefVersion d' = None
  ∧ discovery.calls (client d')
    = discovery.calls (client d) ++ [discovery.CallServerGroups]
  ∧ discovery.calls (client (PreferredVersion d').2)
    = discovery.calls (client d') ++ [discovery.CallServerGroups]
  ∧ ∃ r c,
      discovery.ServerGroups (discovery.inner (client d)) = (r, c)
      ∧ (r = Err err
         ∨ (∃ groups, r = Ok groups
              ∧ findGroup GroupName (metav1.Groups groups) = None
              ∧ err = notRegistered)
         ∨ (∃ groups apiGroup, r = Ok groups
              ∧ findGroup GroupName (metav1.Groups groups) = Some apiGroup
              ∧ chooseVersion gvString MetricVersions apiGroup = Err err)).
Proof.
  intros (Hcache & r & c & Hr & -> & Hcause)%PreferredVersion_Err.
  rewrite Hcache. split; [done|]. split; [done|]. split; [done|].
  split; [by apply PreferredVersion_miss|].
  by exists r, c.
Qed.
End SourceFacts.

(** C6, refuted as stated: the discovery collaborator fails on the first
    call and answers on the second.  Two [PreferredVersion] calls in a row,
    without [Invalidate], return the error and then v1beta1, and discovery
    has been invoked twice across the sequence, not at most once. *)
Lemma PreferredVersion_twice_after_failure :
  let disco :=
    discovery.Spy
      (discovery.Scripted [Err (ErrorString "connection refused")]
         (Ok fixtures.metricsGroups)) [] in
  let run :=
    PreferredVersion_times schema.String fixtures.MetricVersions fixtures.GroupName 2
      (NewAvailableAPIsGetter disco) in
  run.1 = [Err (ErrorString "connection refused"); Ok (fixtures.gv "v1beta1")]
  ∧ discovery.serverGroupsCalls (client run.2) = 2
  ∧ ¬ (discovery.serverGroupsCalls (client run.2) ≤ 1).
Proof.
  split; [reflexivity|]. split; [reflexivity|].
  intros Hle. vm_compute in Hle. lia.
Qed.

(** A run of three calls against a collaborator that first fails, then
    advertises other groups only, then advertises the metrics group. *)
Example PreferredVersion_retries_until_success :
  let disco :=
    discovery.Spy
      (discovery.Scripted [Err (ErrorString "connection refused"); Ok fixtures.otherGroups]
         (Ok fixtures.metricsGroups)) [] in
  let run :=
    PreferredVersion_times schema.String fixtures.MetricVersions fixtures.GroupName 4
      (NewAvailableAPIsGetter disco) in
  run.1 = [Err (ErrorString "connection refused");
           Err (ErrorString "no custom metrics API (custom.metrics.k8s.io) registered");
           Ok (fixtures.gv "v1beta1"); Ok (fixtures.gv "v1beta1")]
  ∧ discovery.serverGroupsCalls (client run.2) = 3.
Proof. split; reflexivity. Qed.

(** Witness of C8 on the scenario of the spec: discovery answers with groups
    that do not include the target. *)
Lemma PreferredVersion_error_caches_nothing_witness :
  let d : apiVersionsFromDiscovery (discovery.spy discovery.scripted) :=
    NewAvailableAPIsGetter
      (discovery.Spy (discovery.Scripted [] (Ok fixtures.otherGroups)) []) in
  let err := ErrorString "no custom metrics API (custom.metrics.k8s.io) registered" in
  let d' : apiVersionsFromDiscovery (discovery.spy discovery.scripted) :=
    {| client :=
         discovery.Spy (discovery.Scripted [] (Ok fixtures.otherGroups))
           [discovery.CallServerGroups];
       prefVersion := None |} in
  PreferredVersion schema.String fixtures.MetricVersions fixtures.GroupName d = (Err err, d')
  ∧ prefVersion d' = prefVersion d
  ∧ prefVersion d' = None
  ∧ discovery.calls (client d')
    = discovery.calls (client d) ++ [discovery.CallServerGroups]
  ∧ discovery.calls
      (client (PreferredVersion schema.String fixtures.MetricVersions fixtures.GroupName d').2)
    = discovery.calls (client d') ++ [discovery.CallServerGroups]
  ∧ ∃ r c,
      discovery.ServerGroups (discovery.inner (client d)) = (r, c)
      ∧ (r = Err err
         ∨ (∃ groups, r = Ok groups
              ∧ findGroup fixtures.GroupName (metav1.Groups groups) = None
              ∧ err = ErrorString
                        ("no custom metrics API (" +:+ fixtures.GroupName +:+ ") registered"))
         ∨ (∃ groups apiGroup, r = Ok groups
              ∧ findGroup fixtures.GroupName (metav1.Groups groups) = Some apiGroup
              ∧ chooseVersion schema.String fixtures.MetricVersions apiGroup = Err err)).
Proof.
  intros d err d'.
  assert (PreferredVersion schema.String fixtures.MetricVersions fixtures.GroupName d
          = (Err err, d')) as Hcall by reflexivity.
  split; [exact Hcall|].
  exact (PreferredVersion_error_caches_nothing
           schema.String fixtures.MetricVersions fixtures.GroupName d d' err Hcall).
Defined.

(** The other two ways to fail leave the cache empty as well. *)
Example PreferredVersion_discovery_failure :
  let d : apiVersionsFromDiscovery (discovery.spy discovery.scripted) :=
    NewAvailableAPIsGetter
      (discovery.Spy (discovery.Scripted [] (Err (ErrorString "connection refused"))) []) in
  let run := PreferredVersion schema.String fixtures.MetricVersions fixtures.GroupName d in
  run.1 = Err (ErrorString "connection refused") ∧ prefVersion run.2 = None.
Proof. split; reflexivity. Qed.

Example PreferredVersion_negotiation_failure :
  let groups :=
    {| metav1.Groups := [fixtures.makeAPIGroup "v1" ["v1"; "v2"]] |} in
  let d : apiVersionsFromDiscovery (discovery.spy discovery.scripted) :=
    NewAvailableAPIsGetter (discovery.Spy (discovery.Scripted [] (Ok groups)) []) in
  let run := PreferredVersion schema.String fixtures.MetricVersions fixtures.GroupName d in
  run.1 = Err (ErrorString "no known available metric versions found")
  ∧ prefVersion run.2 = None.
Proof. split; reflexivity. Qed.

(** ** [APIVersionsFromDiscovery.Versions] and the cached discovery *)

Section CachedFacts.
Variable GroupName : string.
Context {C : Type} {cached : discovery.CachedDiscoveryInterface C}.

Local Abbreviation maybeFetchVersions :=
  (maybeFetchVersions GroupName (C := discovery.spy C)).
Local Abbreviation Versions := (Versions GroupName (C := discovery.spy C)).
Local Abbreviation notRegistered := (ErrorString "no metrics API group registered").

(** [maybeFetchVersions] calls [ServerGroups] once and never
    [Invalidate]. *)
Lemma maybeFetchVersions_spec (d : discovery.spy C) :
  maybeFetchVersions d
  = (fetched GroupName (discovery.ServerGroups (discovery.inner d)).1,
     discovery.Spy (discovery.ServerGroups (discovery.inner d)).2
       (discovery.calls d ++ [discovery.CallServerGroups])).
Proof.
  unfold maybeFetchVersions, fetched.
  unfold discovery.ServerGroups at 1. simpl.
  unfold discovery.spy_DiscoveryInterface.
  destruct (discovery.ServerGroups (discovery.inner d)) as [[groups|err] c]; simpl; [|done].
  by destruct (findGroup GroupName (metav1.Groups groups)).
Qed.

(** ** C10 *)

(** C10: [Versions] asks the cached discovery once.  A hit is returned, and
    an error other than [ErrCacheEmpty] is returned as it is, both without
    [Invalidate] and without a second fetch.  On a miss, that is when the
    cached listing lacks the metrics group or the cache is empty, it calls
    [Invalidate] exactly once and fetches exactly once more; what that
    second fetch gives is final: the group, or its error, or, only when
    the group is still absent, the error "no metrics API group
    registered". *)
Theorem Versions_retries_once_on_miss (d : discovery.spy C)
    (r1 r2 : result metav1.APIGroupList) (c1 c2 : C) :
  discovery.ServerGroups (discovery.inner d) = (r1, c1) →
  discovery.ServerGroups (discovery.Invalidate c1) = (r2, c2) →
  let once := discovery.calls d ++ [discovery.CallServerGroups] in
  let twice :=
    discovery.calls d
      ++ [discovery.CallServerGroups; discovery.CallInvalidate;
          discovery.CallServerGroups] in
  (∀ groups apiGroup,
      r1 = Ok groups → findGroup GroupName (metav1.Groups groups) = Some apiGroup →
      Versions d = ((Some apiGroup, None), discovery.Spy c1 once))
  ∧ (∀ err, r1 = Err err → err ≠ ErrCacheEmpty →
      Versions d = ((None, Some err), discovery.Spy c1 once))
  ∧ (r1 = Err ErrCacheEmpty
     ∨ (∃ groups, r1 = Ok groups ∧ findGroup GroupName (metav1.Groups groups) = None) →
     (Versions d).2 = discovery.Spy c2 twice
     ∧ (∀ groups apiGroup,
          r2 = Ok groups → findGroup GroupName (metav1.Groups groups) = Some apiGroup →
          (Versions d).1 = (Some apiGroup, None))
     ∧ (∀ groups,
          r2 = Ok groups → findGroup GroupName (metav1.Groups groups) = None →
          (Versions d).1 = (None, Some notRegistered))
     ∧ (∀ err, r2 = Err err → (Versions d).1 = (None, Some err))).
Proof.
  intros Hr1 Hr2 once twice.
  assert (maybeFetchVersions (discovery.Invalidate (discovery.Spy c1 once))
          = (fetched GroupName r2, discovery.Spy c2 twice)) as Hsecond.
  { rewrite maybeFetchVersions_spec. simpl. rewrite Hr2. simpl.
    subst once twice. by rewrite <- !app_assoc. }
  unfold Versions. rewrite maybeFetchVersions_spec, Hr1. simpl.
  fold once. split; [|split].
  - intros groups apiGroup -> Hfind. simpl. by rewrite Hfind.
  - intros err -> Hne. simpl.
    rewrite (bool_decide_eq_false_2 (Some err = Some ErrCacheEmpty)) by congruence.
    done.
  - intros Hmiss. simpl in Hsecond.
    assert (fetched GroupName r1 = (None, false, None)
            ∨ fetched GroupName r1 = (None, false, Some ErrCacheEmpty)) as Hfirst.
    { destruct Hmiss as [-> | (groups & -> & Hfind)]; simpl; [by right|].
      rewrite Hfind. by left. }
    destruct Hfirst as [-> | ->].
    all: rewrite 1?(bool_decide_eq_true_2 (None = None)) by done.
    all: rewrite 1?(bool_decide_eq_true_2 (Some ErrCacheEmpty = Some ErrCacheEmpty))
           by done.
    all: rewrite ?orb_true_r; simpl; rewrite Hsecond.
    all: split; [|split; [|split]].
    all: try (intros groups apiGroup -> Hfind; simpl; by rewrite Hfind).
    all: try (intros groups -> Hfind; simpl; by rewrite Hfind).
    all: try (by intros err2 ->).
    all: destruct r2 as [groups|err2]; simpl; [|done].
    all: by destruct (findGroup GroupName (metav1.Groups groups)).
Qed.
End CachedFacts.

(** Witness of C10 on the memory-cached double: the cache is empty, the
    server advertises the metrics group.  [Versions] invalidates once,
    fetches again and returns the group. *)
Lemma Versions_retries_once_on_miss_witness :
  let d := discovery.Spy (discovery.MemCache None (metav1.Groups fixtures.metricsGroups)) [] in
  let c2 :=
    discovery.MemCache (Some fixtures.metricsGroups) (metav1.Groups fixtures.metricsGroups) in
  discovery.ServerGroups (discovery.inner d) = (Err ErrCacheEmpty, discovery.inner d)
  ∧ discovery.ServerGroups (discovery.Invalidate (discovery.inner d))
    = (Ok fixtures.metricsGroups, c2)
  ∧ (Versions fixtures.GroupName d).2
    = discovery.Spy c2
        [discovery.CallServerGroups; discovery.CallInvalidate; discovery.CallServerGroups]
  ∧ (Versions fixtures.GroupName d).1
    = (Some (fixtures.makeAPIGroup "v1beta1" ["v1beta1"]), None).
Proof.
  intros d c2.
  assert (discovery.ServerGroups (discovery.inner d) = (Err ErrCacheEmpty, discovery.inner d))
    as Hr1 by reflexivity.
  assert (discovery.ServerGroups (discovery.Invalidate (discovery.inner d))
          = (Ok fixtures.metricsGroups, c2)) as Hr2 by reflexivity.
  split; [exact Hr1|]. split; [exact Hr2|].
  destruct (Versions_retries_once_on_miss fixtures.GroupName
              (cached := discovery.memCache_CachedDiscoveryInterface) d _ _ _ _ Hr1 Hr2)
    as (_ & _ & Hmiss).
  destruct (Hmiss (or_introl eq_refl)) as (Hstate & Hhit & _ & _).
  split; [exact Hstate|].
  exact (Hhit fixtures.metricsGroups _ eq_refl eq_refl).
Defined.

(** The other outcomes, run on doubles: a stale cache without the group and
    a server that still lacks it; a transport error, returned as it is
    after a single call. *)
Example Versions_still_absent :
  let d :=
    discovery.Spy
      (discovery.MemCache (Some fixtures.otherGroups) (metav1.Groups fixtures.otherGroups)) [] in
  (Versions fixtures.GroupName d).1
  = (None, Some (ErrorString "no metrics API group registered"))
  ∧ discovery.calls (Versions fixtures.GroupName d).2
    = [discovery.CallServerGroups; discovery.CallInvalidate; discovery.CallServerGroups].
Proof. split; reflexivity. Qed.

(** ** The conversion through the internal version *)

Section ConverterFacts.
Variable APIVersionInternal : string.
Context {S Object : Type} {scheme : runtime.Scheme S Object}.

Local Abbreviation internalOf X :=
  {| schema.Group := schema.Group X; schema.Version := APIVersionInternal |}.

(** The recording double answers as the scheme behind it and notes the
    request. *)
Lemma spy_UnsafeConvertToVersion (c : runtime.spy S Object) (obj : Object)
    (target : schema.GroupVersion) :
  runtime.UnsafeConvertToVersion c obj target
  = ((runtime.UnsafeConvertToVersion (runtime.inner c) obj target).1,
     runtime.Spy (runtime.UnsafeConvertToVersion (runtime.inner c) obj target).2
       (runtime.conversions c ++ [(obj, target)])).
Proof.
  unfold runtime.UnsafeConvertToVersion at 1, runtime.spy_Scheme.
  by destruct (runtime.UnsafeConvertToVersion (runtime.inner c) obj target).
Qed.

(** ** C5 *)

(** C5: when the conversion of a value to the pivot (internal) version and
    the conversion of that intermediate result to version B both succeed,
    [UnsafeConvertToVersionVia] returns what composing the two by hand
    returns: the result of the second conversion. *)
Theorem UnsafeConvertToVersionVia_composes (c c1 c2 : S) (value pivot out : Object)
    (B : schema.GroupVersion) :
  toPivot APIVersionInternal c value B = (Ok pivot, c1) →
  fromPivot c1 pivot B = (Ok out, c2) →
  UnsafeConvertToVersionVia APIVersionInternal c value B = (Ok out, c2)
  ∧ UnsafeConvertToVersionVia APIVersionInternal c value B
    = composeViaPivot APIVersionInternal c value B.
Proof.
  unfold UnsafeConvertToVersionVia, composeViaPivot, toPivot, fromPivot.
  intros -> ->. done.
Qed.

(** ** C3 *)

(** C3, amended: [UnsafeConvertToVersionVia] takes no source version and
    has no identity shortcut.  For every value [v] and every target
    version [X], also when [v] is of version [X] already, it first asks
    the scheme to convert [v] to the internal version of the group of [X],
    and it returns [v] unchanged exactly when that conversion and the
    conversion of its result to [X] succeed and give [v] back. *)
Theorem UnsafeConvertToVersionVia_always_through_internal
    (c : runtime.spy S Object) (v : Object) (X : schema.GroupVersion) :
  (∃ rest,
      runtime.conversions (UnsafeConvertToVersionVia APIVersionInternal c v X).2
      = runtime.conversions c ++ (v, internalOf X) :: rest)
  ∧ ((UnsafeConvertToVersionVia APIVersionInternal c v X).1 = Ok v
     ↔ ∃ pivot c1 c2,
         runtime.UnsafeConvertToVersion (runtime.inner c) v (internalOf X) = (Ok pivot, c1)
         ∧ runtime.UnsafeConvertToVersion c1 pivot X = (Ok v, c2)).
Proof.
  unfold UnsafeConvertToVersionVia. rewrite spy_UnsafeConvertToVersion.
  destruct (runtime.UnsafeConvertToVersion (runtime.inner c) v (internalOf X))
    as [[pivot|err] c1]; simpl.
  - rewrite spy_UnsafeConvertToVersion. simpl.
    destruct (runtime.UnsafeConvertToVersion c1 pivot X) as [[out|err] c2] eqn:Hout;
      simpl.
    + split.
      * eexists. by rewrite <- app_assoc.
      * split.
        -- intros [= ->]. by exists pivot, c1, c2.
        -- intros (pivot' & c1' & c2' & [= <- <-] & Hback).
           rewrite Hback in Hout. by injection Hout as ->.
    + split.
      * eexists. by rewrite <- app_assoc.
      * split; [done|].
        intros (pivot' & c1' & c2' & [= <- <-] & Hback). congruence.
  - split; [by eexists|]. split; [done|].
    by intros (pivot' & c1' & c2' & [=] & _).
Qed.
End ConverterFacts.

(** Witness of C5: a v1beta1 value converted to v1beta2 by the tag-replacing
    scheme. *)
Lemma UnsafeConvertToVersionVia_composes_witness :
  let value : fixtures.Object := (fixtures.gv "v1beta1", "foo") in
  let pivot : fixtures.Object := (fixtures.gv fixtures.APIVersionInternal, "foo") in
  let out : fixtures.Object := (fixtures.gv "v1beta2", "foo") in
  let B := fixtures.gv "v1beta2" in
  toPivot (scheme := fixtures.retag) fixtures.APIVersionInternal tt value B = (Ok pivot, tt)
  ∧ fromPivot (scheme := fixtures.retag) tt pivot B = (Ok out, tt)
  ∧ UnsafeConvertToVersionVia (scheme := fixtures.retag) fixtures.APIVersionInternal tt value B
    = (Ok out, tt)
  ∧ UnsafeConvertToVersionVia (scheme := fixtures.retag) fixtures.APIVersionInternal tt value B
    = composeViaPivot (scheme := fixtures.retag) fixtures.APIVersionInternal tt value B.
Proof.
  intros value pivot out B.
  assert (toPivot (scheme := fixtures.retag) fixtures.APIVersionInternal tt value B
          = (Ok pivot, tt)) as Hto by reflexivity.
  assert (fromPivot (scheme := fixtures.retag) tt pivot B = (Ok out, tt))
    as Hfrom by reflexivity.
  split; [exact Hto|]. split; [exact Hfrom|].
  exact (UnsafeConvertToVersionVia_composes (scheme := fixtures.retag)
           fixtures.APIVersionInternal tt tt tt value pivot out B Hto Hfrom).
Defined.

(** C3, refuted as stated: a v1beta1 value is converted to v1beta1.  With
    the tag-replacing scheme the value comes back unchanged, but only after
    the scheme was asked for the conversion to the internal version and
    back.  With the scheme whose internal version cannot carry the payload,
    the value does not come back unchanged. *)
Lemma UnsafeConvertToVersionVia_same_version_uses_internal :
  let v : fixtures.Object := (fixtures.gv "v1beta1", "foo") in
  let X := fixtures.gv "v1beta1" in
  let internal := fixtures.gv fixtures.APIVersionInternal in
  let plain :=
    UnsafeConvertToVersionVia (scheme := runtime.spy_Scheme (scheme := fixtures.retag))
      fixtures.APIVersionInternal (runtime.Spy tt []) v X in
  let narrow :=
    UnsafeConvertToVersionVia (scheme := runtime.spy_Scheme (scheme := fixtures.lossy))
      fixtures.APIVersionInternal (runtime.Spy tt []) v X in
  runtime.conversions plain.2 = [(v, internal); ((internal, "foo"), X)]
  ∧ runtime.conversions plain.2 ≠ []
  ∧ narrow.1 = Ok (X, "")
  ∧ narrow.1 ≠ Ok v.
Proof.
  repeat split; try reflexivity; intros Heq; vm_compute in Heq; discriminate.
Qed.

(** * Further properties of the code *)

(** ** The table and the negotiation rule *)

Section NegotiationMore.
Variable gvString : schema.GroupVersion → string.
Variable MetricVersions : list schema.GroupVersion.

Local Abbreviation known := (knownVersionStrings gvString MetricVersions).
Local Abbreviation table := (metricVersionsToGV gvString MetricVersions).
Local Abbreviation chooseVersion := (chooseVersion gvString MetricVersions).
Local Abbreviation negotiatePreferredVersion :=
  (negotiatePreferredVersion gvString MetricVersions).
Local Abbreviation range := (chooseVersion_range gvString MetricVersions).
Local Abbreviation noneKnown := (ErrorString "no known available metric versions found").

(** The loop returns nothing exactly when no advertised entry is known. *)
Lemma chooseVersion_range_None_iff (versions : list metav1.GroupVersionForDiscovery) :
  range versions = None ↔ Forall (λ v, metav1.GroupVersion v ∉ known) versions.
Proof.
  induction versions as [|version versions IH]; simpl.
  - split; [intros _; constructor | done].
  - rewrite Forall_cons.
    destruct (table !! metav1.GroupVersion version) as [gv|] eqn:Hlookup.
    + split; [done|]. intros [Hunknown _].
      apply metricVersionsToGV_None in Hunknown. congruence.
    + rewrite IH. split; [|by intros [_ ?]].
      intros Hrest. split; [by apply metricVersionsToGV_None | done].
Qed.

(** What the loop returns is the table's entry for an advertised version. *)
Lemma chooseVersion_range_Some (versions : list metav1.GroupVersionForDiscovery)
    (gv : schema.GroupVersion) :
  range versions = Some gv →
  ∃ version, version ∈ versions ∧ table !! metav1.GroupVersion version = Some gv.
Proof.
  induction versions as [|version versions IH]; simpl; [done|].
  destruct (table !! metav1.GroupVersion version) as [gv'|] eqn:Hlookup.
  - intros [= ->]. exists version. split; [apply elem_of_cons; by left | done].
  - intros (v & Hin & Hv)%IH. exists v. split; [apply elem_of_cons; by right | done].
Qed.

(** Both functions as one case distinction over the declared preference. *)
Lemma chooseVersion_cases (apiGroup : metav1.APIGroup) :
  let key := metav1.GroupVersion (metav1.PreferredVersion apiGroup) in
  (∃ gv, key ≠ "" ∧ table !! key = Some gv
         ∧ chooseVersion apiGroup = Ok gv ∧ negotiatePreferredVersion apiGroup = Ok gv)
  ∨ ((key = "" ∨ key ∉ known)
     ∧ chooseVersion apiGroup
       = match range (metav1.Versions apiGroup) with
         | None => Err noneKnown
         | Some gv => Ok gv
         end
     ∧ negotiatePreferredVersion apiGroup
       = match range (metav1.Versions apiGroup) with
         | None => Err noneKnown
         | Some gv => Ok gv
         end).
Proof.
  intros key. subst key. unfold chooseVersion, negotiatePreferredVersion.
  rewrite negotiatePreferredVersion_range_None.
  generalize (metav1.GroupVersion (metav1.PreferredVersion apiGroup)). intros key.
  destruct (table !! key) as [gv|] eqn:Hlookup.
  - destruct key as [|a rest]; simpl.
    + right. split; [by left | done].
    + left. by exists gv.
  - right. split; [right; by apply metricVersionsToGV_None | done].
Qed.

(** A negotiated version is the table's entry for the declared preference
    or for an advertised version. *)
Lemma negotiated_from_table (apiGroup : metav1.APIGroup) (gv : schema.GroupVersion) :
  chooseVersion apiGroup = Ok gv ∨ negotiatePreferredVersion apiGroup = Ok gv →
  ∃ key,
    table !! key = Some gv
    ∧ (key = metav1.GroupVersion (metav1.PreferredVersion apiGroup)
       ∨ key ∈ metav1.GroupVersion <$> metav1.Versions apiGroup).
Proof.
  intros Hok.
  destruct (chooseVersion_cases apiGroup) as
    [(gv' & _ & Hlookup & Hc & Hn) | (_ & Hc & Hn)].
  - assert (gv' = gv) as -> by (destruct Hok; congruence).
    eexists. split; [exact Hlookup | by left].
  - assert (range (metav1.Versions apiGroup) = Some gv) as Hrange.
    { destruct (range (metav1.Versions apiGroup)); destruct Hok; congruence. }
    apply chooseVersion_range_Some in Hrange as (version & Hin & Hlookup).
    eexists. split; [exact Hlookup|]. right. apply list_elem_of_fmap. by exists version.
Qed.

(** The negotiated version is one the client knows, and its rendering is
    what the server declared as preferred or one of the versions the server
    advertised: neither function ever selects a version outside
    [MetricVersions] or one the server did not name. *)
Theorem negotiated_version_known_and_advertised
    (apiGroup : metav1.APIGroup) (gv : schema.GroupVersion) :
  chooseVersion apiGroup = Ok gv ∨ negotiatePreferredVersion apiGroup = Ok gv →
  gv ∈ MetricVersions
  ∧ (gvString gv = metav1.GroupVersion (metav1.PreferredVersion apiGroup)
     ∨ gvString gv ∈ metav1.GroupVersion <$> metav1.Versions apiGroup).
Proof.
  intros (key & Hlookup & Hkey)%negotiated_from_table.
  destruct (metricVersionsToGV_Some _ _ Hlookup) as [Hknown Hrendering].
  split; [exact Hknown|]. by rewrite Hrendering.
Qed.

(** Negotiation fails exactly when the declared preference is empty or
    unknown and no advertised version is known; the error is then always
    the same one. *)
Theorem negotiation_fails_iff_nothing_known (apiGroup : metav1.APIGroup) (err : error) :
  (chooseVersion apiGroup = Err err ↔ negotiatePreferredVersion apiGroup = Err err)
  ∧ (chooseVersion apiGroup = Err err
     ↔ err = noneKnown
       ∧ (metav1.GroupVersion (metav1.PreferredVersion apiGroup) = ""
          ∨ metav1.GroupVersion (metav1.PreferredVersion apiGroup) ∉ known)
       ∧ Forall (λ v, metav1.GroupVersion v ∉ known) (metav1.Versions apiGroup)).
Proof.
  destruct (chooseVersion_cases apiGroup) as
    [(gv & Hne & Hlookup & -> & ->) | (Hpref & -> & ->)].
  - split; [done|]. split; [done|]. intros (_ & [Hempty | Hunknown] & _); [done|].
    apply metricVersionsToGV_None in Hunknown. congruence.
  - split; [done|]. rewrite <- chooseVersion_range_None_iff.
    destruct (range (metav1.Versions apiGroup)); split; try done.
    + by intros (_ & _ & ?).
    + by intros [= <-].
    + by intros (-> & _).
Qed.
End NegotiationMore.

(** Witness: the group of the second test case negotiates v1beta2. *)
Lemma negotiated_version_known_and_advertised_witness :
  let apiGroup := fixtures.makeAPIGroup "" ["v1beta2"; "v1beta1"] in
  let gv := fixtures.gv "v1beta2" in
  (chooseVersion schema.String fixtures.MetricVersions apiGroup = Ok gv
   ∨ negotiatePreferredVersion schema.String fixtures.MetricVersions apiGroup = Ok gv)
  ∧ gv ∈ fixtures.MetricVersions
  ∧ (schema.String gv = metav1.GroupVersion (metav1.PreferredVersion apiGroup)
     ∨ schema.String gv ∈ metav1.GroupVersion <$> metav1.Versions apiGroup).
Proof.
  intros apiGroup gv.
  assert (chooseVersion schema.String fixtures.MetricVersions apiGroup = Ok gv
          ∨ negotiatePreferredVersion schema.String fixtures.MetricVersions apiGroup = Ok gv)
    as Hok by (left; reflexivity).
  split; [exact Hok|].
  exact (negotiated_version_known_and_advertised
           schema.String fixtures.MetricVersions apiGroup gv Hok).
Defined.

Section TableMore.
Variable gvString : schema.GroupVersion → string.

(** Without two known versions that render alike, [init] files every
    known version under its own rendering. *)
Lemma metricVersionsToGV_lookup_NoDup
    (MetricVersions : list schema.GroupVersion) (ver : schema.GroupVersion) :
  NoDup (gvString <$> MetricVersions) →
  ver ∈ MetricVersions →
  metricVersionsToGV gvString MetricVersions !! gvString ver = Some ver.
Proof.
  unfold metricVersionsToGV, init.
  induction MetricVersions as [|last vers IH] using rev_ind; [by intros _ ?%elem_of_nil|].
  rewrite fmap_app, foldl_app. simpl.
  intros (Hvers & Hdisjoint & _)%NoDup_app [Hin | ->%list_elem_of_singleton]%elem_of_app.
  - rewrite lookup_insert_ne; [by apply IH|].
    intros Heq. apply (Hdisjoint (gvString ver)).
    + apply list_elem_of_fmap. by exists ver.
    + rewrite <- Heq. by apply list_elem_of_singleton.
  - apply lookup_insert_eq.
Qed.

(** When no two known versions render alike, the table built by [init]
    holds exactly the known versions, each under its own rendering: a
    lookup succeeds with [ver] exactly when [ver] is known and the key is
    its rendering. *)
Theorem metricVersionsToGV_lookup_iff
    (MetricVersions : list schema.GroupVersion) (key : string) (ver : schema.GroupVersion) :
  NoDup (gvString <$> MetricVersions) →
  metricVersionsToGV gvString MetricVersions !! key = Some ver
  ↔ ver ∈ MetricVersions ∧ gvString ver = key.
Proof.
  intros Hnodup. split.
  - apply metricVersionsToGV_Some.
  - intros [Hin <-]. by apply metricVersionsToGV_lookup_NoDup.
Qed.

(** When several known versions render alike, the table keeps the one that
    comes last in [MetricVersions]: a version is found under its rendering
    as soon as no later entry renders the same. *)
Theorem metricVersionsToGV_last_rendering_wins
    (before after : list schema.GroupVersion) (ver : schema.GroupVersion) :
  Forall (λ later, gvString later ≠ gvString ver) after →
  metricVersionsToGV gvString (before ++ ver :: after) !! gvString ver = Some ver.
Proof.
  unfold metricVersionsToGV, init.
  induction after as [|last after IH] using rev_ind; intros Hafter.
  - rewrite foldl_app. simpl. apply lookup_insert_eq.
  - apply Forall_app in Hafter as [Hafter Hlast].
    rewrite Forall_singleton in Hlast.
    rewrite app_comm_cons, app_assoc, foldl_app. simpl.
    rewrite lookup_insert_ne; [by apply IH | exact Hlast].
Qed.

(** Two lists of known versions with the same entries give the same
    table, provided no two entries render alike. *)
Lemma metricVersionsToGV_Permutation (known1 known2 : list schema.GroupVersion) :
  NoDup (gvString <$> known1) →
  known1 ≡ₚ known2 →
  metricVersionsToGV gvString known1 = metricVersionsToGV gvString known2.
Proof.
  intros Hnodup Hperm.
  assert (NoDup (gvString <$> known2)) as Hnodup2 by (by rewrite <- Hperm).
  apply map_eq. intros key.
  destruct (metricVersionsToGV gvString known1 !! key) as [gv|] eqn:H1.
  - destruct (metricVersionsToGV_Some _ _ H1) as [Hin <-].
    symmetry. apply metricVersionsToGV_lookup_NoDup; [done | by rewrite <- Hperm].
  - destruct (metricVersionsToGV gvString known2 !! key) as [gv|] eqn:H2; [|done].
    destruct (metricVersionsToGV_Some _ _ H2) as [Hin <-].
    rewrite metricVersionsToGV_lookup_NoDup in H1; [done.. | by rewrite Hperm].
Qed.

Lemma chooseVersion_range_table (known1 known2 : list schema.GroupVersion) versions :
  metricVersionsToGV gvString known1 = metricVersionsToGV gvString known2 →
  chooseVersion_range gvString known1 versions
  = chooseVersion_range gvString known2 versions.
Proof.
  intros Htable. induction versions as [|version versions IH]; simpl; [done|].
  by rewrite Htable, IH.
Qed.

(** The order in which the client lists the versions it knows has no say in
    the negotiation: two orderings of the same known versions negotiate the
    same version, or fail alike, with every group. *)
Theorem negotiation_ignores_client_order
    (known1 known2 : list schema.GroupVersion) (apiGroup : metav1.APIGroup) :
  NoDup (gvString <$> known1) →
  known1 ≡ₚ known2 →
  chooseVersion gvString known1 apiGroup = chooseVersion gvString known2 apiGroup
  ∧ negotiatePreferredVersion gvString known1 apiGroup
    = negotiatePreferredVersion gvString known2 apiGroup.
Proof.
  intros Hnodup Hperm.
  pose proof (metricVersionsToGV_Permutation _ _ Hnodup Hperm) as Htable.
  unfold chooseVersion, negotiatePreferredVersion.
  rewrite !negotiatePreferredVersion_range_None, Htable.
  by rewrite (chooseVersion_range_table _ _ _ Htable).
Qed.
End TableMore.

Lemma metricVersionsToGV_lookup_iff_witness :
  NoDup (schema.String <$> fixtures.MetricVersions)
  ∧ (metricVersionsToGV schema.String fixtures.MetricVersions
       !! "custom.metrics.k8s.io/v1beta1"
     = Some (fixtures.gv "v1beta1")
     ↔ fixtures.gv "v1beta1" ∈ fixtures.MetricVersions
       ∧ schema.String (fixtures.gv "v1beta1") = "custom.metrics.k8s.io/v1beta1").
Proof.
  assert (NoDup (schema.String <$> fixtures.MetricVersions)) as Hnodup
    by (apply (bool_decide_unpack _); vm_compute; exact I).
  split; [exact Hnodup|].
  exact (metricVersionsToGV_lookup_iff schema.String fixtures.MetricVersions _ _ Hnodup).
Defined.

Lemma negotiation_ignores_client_order_witness :
  let apiGroup := fixtures.makeAPIGroup "" ["v2"; "v1"] in
  NoDup (schema.String <$> fixtures.knowsV1V2)
  ∧ fixtures.knowsV1V2 ≡ₚ [fixtures.gv "v2"; fixtures.gv "v1"]
  ∧ chooseVersion schema.String fixtures.knowsV1V2 apiGroup
    = chooseVersion schema.String [fixtures.gv "v2"; fixtures.gv "v1"] apiGroup
  ∧ negotiatePreferredVersion schema.String fixtures.knowsV1V2 apiGroup
    = negotiatePreferredVersion schema.String [fixtures.gv "v2"; fixtures.gv "v1"] apiGroup.
Proof.
  intros apiGroup.
  assert (NoDup (schema.String <$> fixtures.knowsV1V2)) as Hnodup
    by (apply (bool_decide_unpack _); vm_compute; exact I).
  assert (fixtures.knowsV1V2 ≡ₚ [fixtures.gv "v2"; fixtures.gv "v1"]) as Hperm
    by apply Permutation_swap.
  split; [exact Hnodup|]. split; [exact Hperm|].
  exact (negotiation_ignores_client_order schema.String _ _ apiGroup Hnodup Hperm).
Defined.

(** Witness: with the version alone as rendering, two groups share the
    rendering of ["v1"] and the later one is kept. *)
Lemma metricVersionsToGV_last_rendering_wins_witness :
  let first := {| schema.Group := "a"; schema.Version := "v1" |} in
  let second := {| schema.Group := "b"; schema.Version := "v1" |} in
  let other := {| schema.Group := "a"; schema.Version := "v2" |} in
  Forall (λ later, schema.Version later ≠ schema.Version second) [other]
  ∧ metricVersionsToGV schema.Version ([first] ++ second :: [other]) !! schema.Version second
    = Some second.
Proof.
  intros first second other.
  assert (Forall (λ later, schema.Version later ≠ schema.Version second) [other]) as Hafter
    by (apply Forall_singleton; discriminate).
  split; [exact Hafter|].
  exact (metricVersionsToGV_last_rendering_wins schema.Version [first] [other] second Hafter).
Defined.

(** ** The version source over whole runs *)

(** A version [chooseVersion] returns is known. *)
Lemma chooseVersion_Ok_known gvString MetricVersions
    (apiGroup : metav1.APIGroup) (gv : schema.GroupVersion) :
  chooseVersion gvString MetricVersions apiGroup = Ok gv → gv ∈ MetricVersions.
Proof.
  destruct (chooseVersion_cases gvString MetricVersions apiGroup) as
    [(gv' & _ & Hlookup & -> & _) | (_ & -> & _)].
  - intros [= <-]. by destruct (metricVersionsToGV_Some _ _ Hlookup).
  - destruct (chooseVersion_range gvString MetricVersions (metav1.Versions apiGroup))
      as [gv'|] eqn:Hrange; [|done].
    intros [= <-]. apply chooseVersion_range_Some in Hrange as (version & _ & Hlookup).
    by destruct (metricVersionsToGV_Some _ _ Hlookup).
Qed.

Section GroupLookup.
Variable GroupName : string.

(** The loop of [fetchVersions] and of [maybeFetchVersions] stops at the
    first advertised group that bears the name of the custom metrics API:
    that group is returned and whatever follows it is not looked at, also
    not a second group of the same name; nothing is returned exactly when no
    advertised group bears the name. *)
Theorem findGroup_first_of_name (groups : list metav1.APIGroup) :
  match findGroup GroupName groups with
  | Some apiGroup =>
      metav1.Name apiGroup = GroupName
      ∧ ∃ before after,
          groups = before ++ apiGroup :: after
          ∧ Forall (λ group, metav1.Name group ≠ GroupName) before
  | None => Forall (λ group, metav1.Name group ≠ GroupName) groups
  end.
Proof.
  induction groups as [|group groups IH]; simpl; [constructor|].
  destruct (String.eqb_spec (metav1.Name group) GroupName) as [Heq | Hne].
  - split; [done|]. exists [], groups. split; [done | constructor].
  - destruct (findGroup GroupName groups) as [apiGroup|].
    + destruct IH as (Hname & before & after & -> & Hbefore).
      split; [done|]. exists (group :: before), after. split; [done|].
      by constructor.
    + by constructor.
Qed.
End GroupLookup.

Section SourceMore.
Variable gvString : schema.GroupVersion → string.
Variable MetricVersions : list schema.GroupVersion.
Variable GroupName : string.
Context {C : Type} {disco : discovery.DiscoveryInterface C}.

Local Abbreviation PreferredVersion :=
  (PreferredVersion gvString MetricVersions GroupName).
Local Abbreviation runSource := (runSource gvString MetricVersions GroupName).
Local Abbreviation chooseVersion := (chooseVersion gvString MetricVersions).
Local Abbreviation cacheKnown := (cacheKnown MetricVersions (C := C)).

Lemma PreferredVersion_cacheKnown (d : apiVersionsFromDiscovery C) :
  cacheKnown d →
  cacheKnown (PreferredVersion d).2
  ∧ ∀ v, (PreferredVersion d).1 = Ok v → v ∈ MetricVersions.
Proof.
  unfold cacheKnown. intros Hd. unfold PreferredVersion, fetchVersions.
  destruct (prefVersion d) as [v0|] eqn:Hcache.
  - simpl. split; [intros v Hv; apply Hd; congruence|].
    intros v [= <-]. by apply Hd.
  - destruct (discovery.ServerGroups (client d)) as [[groups|err] c]; simpl;
      [|split; [by intros ? ? | done]].
    destruct (findGroup GroupName (metav1.Groups groups)) as [apiGroup|];
      [|split; [by intros ? ? | done]].
    destruct (chooseVersion apiGroup) as [v1|err] eqn:Hchoose; simpl;
      [|split; [by intros ? ? | done]].
    apply chooseVersion_Ok_known in Hchoose.
    split; [by intros v [= <-] | by intros v [= <-]].
Qed.

(** A source made by [NewAvailableAPIsGetter] and used through
    [PreferredVersion] and [Invalidate], in any order and any number of
    times, never caches and never returns a version outside
    [MetricVersions], whatever the discovery client answers. *)
Theorem source_only_yields_known_versions (calls : list sourceCall) (client : C) :
  cacheKnown (runSource calls (NewAvailableAPIsGetter client)).2
  ∧ Forall (λ r, ∀ v, r = Ok v → v ∈ MetricVersions)
      (runSource calls (NewAvailableAPIsGetter client)).1.
Proof.
  assert (cacheKnown (NewAvailableAPIsGetter client)) as Hinit by (by intros v).
  revert Hinit. generalize (NewAvailableAPIsGetter client). clear client.
  induction calls as [|[|] calls IH]; intros d Hd; simpl.
  - split; [done | constructor].
  - destruct (PreferredVersion_cacheKnown d Hd) as [Hd' Hr].
    destruct (PreferredVersion d) as [r d']. simpl in *.
    destruct (IH d' Hd') as [Hend Hrs].
    destruct (runSource calls d') as [rs d'']. simpl in *.
    split; [done | by constructor].
  - apply IH. by intros v.
Qed.

(** On an empty cache [PreferredVersion] succeeds exactly when discovery
    answers, the answer holds a group of the wanted name and negotiation on
    the first such group succeeds; it then returns the negotiated version
    and leaves it in the cache. *)
Theorem PreferredVersion_fills_empty_cache
    (d d' : apiVersionsFromDiscovery C) (v : schema.GroupVersion) :
  prefVersion d = None →
  PreferredVersion d = (Ok v, d')
  ↔ ∃ groups c apiGroup,
      discovery.ServerGroups (client d) = (Ok groups, c)
      ∧ findGroup GroupName (metav1.Groups groups) = Some apiGroup
      ∧ chooseVersion apiGroup = Ok v
      ∧ d' = {| client := c; prefVersion := Some v |}.
Proof.
  intros Hcache. unfold PreferredVersion, fetchVersions. rewrite Hcache.
  destruct (discovery.ServerGroups (client d)) as [[groups|err] c]; simpl.
  - destruct (findGroup GroupName (metav1.Groups groups)) as [apiGroup|] eqn:Hfind.
    + destruct (chooseVersion apiGroup) as [v1|err] eqn:Hchoose; simpl.
      * split.
        -- intros [= <- <-]. by exists groups, c, apiGroup.
        -- intros (groups' & c' & apiGroup' & [= <- <-] & Hfind' & Hchoose' & ->).
           rewrite Hfind in Hfind'. injection Hfind' as <-.
           rewrite Hchoose in Hchoose'. by injection Hchoose' as <-.
      * split; [done|].
        intros (groups' & c' & apiGroup' & [= <- <-] & Hfind' & Hchoose' & _).
        rewrite Hfind in Hfind'. injection Hfind' as <-. congruence.
    + split; [done|].
      intros (groups' & c' & apiGroup' & [= <- <-] & Hfind' & _). congruence.
  - split; [done | by intros (? & ? & ? & ? & _)].
Qed.
End SourceMore.

Section SourceCalls.
Variable gvString : schema.GroupVersion → string.
Variable MetricVersions : list schema.GroupVersion.
Variable GroupName : string.
Context {C : Type} {disco : discovery.DiscoveryInterface C}.

Local Abbreviation source := (apiVersionsFromDiscovery (discovery.spy C)).
Local Abbreviation PreferredVersion :=
  (PreferredVersion gvString MetricVersions GroupName (C := discovery.spy C)).
Local Abbreviation runSource :=
  (runSource gvString MetricVersions GroupName (C := discovery.spy C)).

(** One call adds at most one [ServerGroups] call and nothing else. *)
Lemma PreferredVersion_calls (d : source) :
  ∃ k, k ≤ 1
    ∧ discovery.calls (client (PreferredVersion d).2)
      = discovery.calls (client d) ++ replicate k discovery.CallServerGroups.
Proof.
  destruct (prefVersion d) as [v|] eqn:Hcache.
  - exists 0. split; [lia|].
    rewrite (PreferredVersion_cached gvString MetricVersions GroupName d v Hcache).
    simpl. by rewrite app_nil_r.
  - exists 1. split; [lia|].
    by rewrite (PreferredVersion_miss gvString MetricVersions GroupName d Hcache).
Qed.

(** Over any run of [PreferredVersion] and [Invalidate] calls, the
    discovery client receives [ServerGroups] calls only, at most one for
    each [PreferredVersion] call: [Invalidate] empties the cache of the
    source and does not reach the client. *)
Theorem runSource_discovery_calls (calls : list sourceCall) (d : source) :
  ∃ k, k ≤ length (filter (λ c, c = CallPreferredVersion) calls)
    ∧ discovery.calls (client (runSource calls d).2)
      = discovery.calls (client d) ++ replicate k discovery.CallServerGroups.
Proof.
  revert d. induction calls as [|[|] calls IH]; intros d.
  - exists 0. split; [simpl; lia|]. simpl. by rewrite app_nil_r.
  - rewrite filter_cons_True by done. simpl.
    destruct (PreferredVersion_calls d) as (k1 & Hk1 & Hcalls1).
    destruct (PreferredVersion d) as [r d']. simpl in Hcalls1.
    destruct (IH d') as (k2 & Hk2 & Hcalls2).
    destruct (runSource calls d') as [rs d'']. simpl in *.
    exists (k1 + k2). split; [lia|].
    by rewrite Hcalls2, Hcalls1, replicate_add, app_assoc.
  - rewrite filter_cons_False by done. simpl.
    destruct (IH (Invalidate d)) as (k & Hk & Hcalls). by exists k.
Qed.
End SourceCalls.

(** Witness: discovery advertises the metrics group with v1beta1. *)
Lemma PreferredVersion_fills_empty_cache_witness :
  let d : apiVersionsFromDiscovery discovery.scripted :=
    NewAvailableAPIsGetter (discovery.Scripted [] (Ok fixtures.metricsGroups)) in
  let d' : apiVersionsFromDiscovery discovery.scripted :=
    {| client := discovery.Scripted [] (Ok fixtures.metricsGroups);
       prefVersion := Some (fixtures.gv "v1beta1") |} in
  prefVersion d = None
  ∧ PreferredVersion schema.String fixtures.MetricVersions fixtures.GroupName d
    = (Ok (fixtures.gv "v1beta1"), d').
Proof.
  intros d d'.
  assert (prefVersion d = None) as Hcache by reflexivity.
  split; [exact Hcache|].
  apply (PreferredVersion_fills_empty_cache
           schema.String fixtures.MetricVersions fixtures.GroupName d d' _ Hcache).
  exists fixtures.metricsGroups, (discovery.Scripted [] (Ok fixtures.metricsGroups)),
    (fixtures.makeAPIGroup "v1beta1" ["v1beta1"]).
  repeat split; reflexivity.
Defined.

(** ** [Versions] as seen by its caller *)

Lemma findGroup_Some_name (GroupName : string) (groups : list metav1.APIGroup)
    (apiGroup : metav1.APIGroup) :
  findGroup GroupName groups = Some apiGroup → metav1.Name apiGroup = GroupName.
Proof.
  induction groups as [|group groups IH]; simpl; [done|].
  destruct (String.eqb_spec (metav1.Name group) GroupName) as [Heq | Hne]; [|done].
  by intros [= <-].
Qed.

Section VersionsMore.
Variable GroupName : string.
Context {C : Type} {cached : discovery.CachedDiscoveryInterface C}.

(** One fetch gives a group of the wanted name with [present] set and no
    error, or no group. *)
Lemma maybeFetchVersions_shape (d : C) :
  (∃ apiGroup, (maybeFetchVersions GroupName d).1 = (Some apiGroup, true, None)
               ∧ metav1.Name apiGroup = GroupName)
  ∨ (∃ err, (maybeFetchVersions GroupName d).1 = (None, false, err)).
Proof.
  unfold maybeFetchVersions.
  destruct (discovery.ServerGroups d) as [[groups|err] d']; simpl; [|right; by eexists].
  destruct (findGroup GroupName (metav1.Groups groups)) as [apiGroup|] eqn:Hfind;
    [|right; by eexists].
  left. exists apiGroup. split; [done|]. by eapply findGroup_Some_name.
Qed.

Lemma Versions_shape (d : C) :
  (∃ apiGroup, (Versions GroupName d).1 = (Some apiGroup, None)
               ∧ metav1.Name apiGroup = GroupName)
  ∨ (∃ err, (Versions GroupName d).1 = (None, Some err)).
Proof.
  assert (∀ d1 : C,
            (∃ apiGroup,
                (let '(group, present, err, d) := maybeFetchVersions GroupName d1 in
                 match err with
                 | Some err => (None, Some err, d)
                 | None =>
                     if negb present
                     then (None, Some (ErrorString "no metrics API group registered"), d)
                     else (group, None, d)
                 end).1 = (Some apiGroup, None)
                ∧ metav1.Name apiGroup = GroupName)
            ∨ (∃ err,
                  (let '(group, present, err, d) := maybeFetchVersions GroupName d1 in
                   match err with
                   | Some err => (None, Some err, d)
                   | None =>
                       if negb present
                       then (None, Some (ErrorString "no metrics API group registered"), d)
                       else (group, None, d)
                   end).1 = (None, Some err))) as Hfinal.
  { intros d1.
    destruct (maybeFetchVersions_shape d1) as [(apiGroup & Hhit & Hname) | (err & Hmiss)];
      destruct (maybeFetchVersions GroupName d1) as [[[g p] e] d2]; simpl in *.
    - injection Hhit as -> -> ->. left. by exists apiGroup.
    - injection Hmiss as -> -> ->. right. destruct err; by eexists. }
  unfold Versions.
  pose proof (Hfinal d) as Hfirst.
  destruct (maybeFetchVersions GroupName d) as [[[group present] err] d1].
  destruct (bool_decide (err = None) && negb present
            || bool_decide (err = Some ErrCacheEmpty)); [apply Hfinal | exact Hfirst].
Qed.

(** [Versions] returns a group or an error and never both or neither: the
    group pointer is [nil] exactly when the error is not, and a group it
    returns bears the name of the custom metrics API.  A caller may
    dereference the group as soon as the error is [nil]. *)
Theorem Versions_group_or_error (d : C) :
  match (Versions GroupName d).1 with
  | (Some apiGroup, None) => metav1.Name apiGroup = GroupName
  | (None, Some _) => True
  | (Some _, Some _) | (None, None) => False
  end.
Proof.
  destruct (Versions_shape d) as [(apiGroup & -> & Hname) | (err & ->)]; done.
Qed.
End VersionsMore.

(** ** The converter *)

Section ViaMore.
Variable APIVersionInternal : string.
Context {S Object : Type} {scheme : runtime.Scheme S Object}.

Local Abbreviation internalOf X :=
  {| schema.Group := schema.Group X; schema.Version := APIVersionInternal |}.
Local Abbreviation toInternalFailed :=
  "failed to convert the given object to the internal version: ".
Local Abbreviation toExternalFailed :=
  "failed to convert the given object back to the external version: ".

(** The conversions [UnsafeConvertToVersionVia] asks of a recording scheme,
    by what the scheme behind it answers. *)
Lemma UnsafeConvertToVersionVia_spy (c : runtime.spy S Object) (obj : Object)
    (X : schema.GroupVersion) :
  UnsafeConvertToVersionVia APIVersionInternal c obj X
  = match runtime.UnsafeConvertToVersion (runtime.inner c) obj (internalOf X) with
    | (Err inner, s1) =>
        (Err (ErrorString (toInternalFailed +:+ Error inner)),
         runtime.Spy s1 (runtime.conversions c ++ [(obj, internalOf X)]))
    | (Ok objInt, s1) =>
        match runtime.UnsafeConvertToVersion s1 objInt X with
        | (Err inner, s2) =>
            (Err (ErrorString (toExternalFailed +:+ Error inner)),
             runtime.Spy s2 (runtime.conversions c ++ [(obj, internalOf X); (objInt, X)]))
        | (Ok objExt, s2) =>
            (Ok objExt,
             runtime.Spy s2 (runtime.conversions c ++ [(obj, internalOf X); (objInt, X)]))
        end
    end.
Proof.
  unfold UnsafeConvertToVersionVia. rewrite spy_UnsafeConvertToVersion.
  destruct (runtime.UnsafeConvertToVersion (runtime.inner c) obj (internalOf X))
    as [[objInt|inner] s1]; simpl; [|done].
  rewrite spy_UnsafeConvertToVersion. simpl.
  destruct (runtime.UnsafeConvertToVersion s1 objInt X) as [[objExt|inner] s2]; simpl;
    by rewrite <- app_assoc.
Qed.

(** A failure of [UnsafeConvertToVersionVia] is the failure of one of its
    two conversions, reported under a new error: the message names the leg
    that failed and ends with the message of the scheme's error, and the
    error is never the scheme's own error value, so never a sentinel such as
    [ErrCacheEmpty].  When the conversion to the internal version fails, the
    conversion to the external version is not attempted. *)
Theorem UnsafeConvertToVersionVia_failure (c c' : runtime.spy S Object) (obj : Object)
    (X : schema.GroupVersion) (err : error) :
  UnsafeConvertToVersionVia APIVersionInternal c obj X = (Err err, c') →
  err ≠ ErrCacheEmpty
  ∧ ((∃ inner s1,
         runtime.UnsafeConvertToVersion (runtime.inner c) obj (internalOf X)
         = (Err inner, s1)
         ∧ err = ErrorString (toInternalFailed +:+ Error inner)
         ∧ runtime.conversions c' = runtime.conversions c ++ [(obj, internalOf X)])
     ∨ (∃ objInt s1 inner s2,
           runtime.UnsafeConvertToVersion (runtime.inner c) obj (internalOf X)
           = (Ok objInt, s1)
           ∧ runtime.UnsafeConvertToVersion s1 objInt X = (Err inner, s2)
           ∧ err = ErrorString (toExternalFailed +:+ Error inner)
           ∧ runtime.conversions c'
             = runtime.conversions c ++ [(obj, internalOf X); (objInt, X)])).
Proof.
  rewrite UnsafeConvertToVersionVia_spy.
  destruct (runtime.UnsafeConvertToVersion (runtime.inner c) obj (internalOf X))
    as [[objInt|inner] s1] eqn:Hfirst.
  - destruct (runtime.UnsafeConvertToVersion s1 objInt X) as [[objExt|inner] s2] eqn:Hsecond;
      [done|].
    intros [= <- <-]. split; [done|]. right. by exists objInt, s1, inner, s2.
  - intros [= <- <-]. split; [done|]. left. by exists inner, s1.
Qed.
End ViaMore.

Section ConverterMore.
Variable gvString : schema.GroupVersion → string.
Variable MetricVersions : list schema.GroupVersion.
Variable APIVersionInternal : string.
Context {S F M Object : Type}.
Context {schemeOf : runtime.Scheme S Object}.
Context {codecsOf : serializer.CodecFactory F Object}.

Local Abbreviation internalOf X :=
  {| schema.Group := schema.Group X; schema.Version := APIVersionInternal |}.

(** With [Versions] of an [APIVersionsFromDiscovery] as its source of
    versions, [ConvertListOptionsToPreferredVersion] never dereferences a
    [nil] group, whatever the cached discovery behind it does:
    the group it negotiates on is there whenever [Versions] reports no
    error. *)
Theorem ConvertListOptionsToPreferredVersion_Versions_no_panic
    (GroupName : string) {C : Type} {cached : discovery.CachedDiscoveryInterface C}
    (c : converter.MetricConverter S F C) (opts : Object) :
  (ConvertListOptionsToPreferredVersion gvString MetricVersions APIVersionInternal
     (versionsOf := Versions_AvailableMetricsAPIFunc GroupName) c opts).1
  ≠ NilPointerDereference.
Proof.
  unfold ConvertListOptionsToPreferredVersion.
  unfold callAvailableMetricsAPIFunc, Versions_AvailableMetricsAPIFunc.
  destruct (Versions_shape GroupName (converter.metricsVersions c))
    as [(apiGroup & Hgroup & _) | (err & Herr)];
    destruct (Versions GroupName (converter.metricsVersions c)) as [[group err'] m];
    simpl in *.
  - injection Hgroup as -> ->.
    destruct (negotiatePreferredVersion gvString MetricVersions apiGroup); [|done].
    destruct (UnsafeConvertToVersionVia _ _ _ _) as [[?|?] ?]; done.
  - by injection Herr as -> ->.
Qed.

Context {versionsOf : AvailableMetricsAPIFunc M}.

Local Abbreviation ConvertListOptionsToPreferredVersion :=
  (ConvertListOptionsToPreferredVersion gvString MetricVersions APIVersionInternal
     (S := S) (F := F) (M := M)).

(** An object [ConvertListOptionsToPreferredVersion] returns is the list
    options converted, through the internal version, to a version the
    client knows and the server declared as preferred or advertised: the
    version negotiated on the group its source of versions returned. *)
Theorem ConvertListOptionsToPreferredVersion_result
    (c c' : converter.MetricConverter S F M) (opts paramObj : Object) :
  ConvertListOptionsToPreferredVersion c opts = (Returns (Ok paramObj), c') →
  ∃ apiGroup preferredVersion,
    (callAvailableMetricsAPIFunc (converter.metricsVersions c)).1 = (Some apiGroup, None)
    ∧ converter.metricsVersions c'
      = (callAvailableMetricsAPIFunc (converter.metricsVersions c)).2
    ∧ negotiatePreferredVersion gvString MetricVersions apiGroup = Ok preferredVersion
    ∧ preferredVersion ∈ MetricVersions
    ∧ (gvString preferredVersion = metav1.GroupVersion (metav1.PreferredVersion apiGroup)
       ∨ gvString preferredVersion ∈ metav1.GroupVersion <$> metav1.Versions apiGroup)
    ∧ UnsafeConvertToVersionVia APIVersionInternal (converter.scheme c) opts
        preferredVersion
      = (Ok paramObj, converter.scheme c').
Proof.
  unfold ConvertListOptionsToPreferredVersion.
  destruct (callAvailableMetricsAPIFunc (converter.metricsVersions c))
    as [[[apiGroup|] [err|]] m]; simpl; try done.
  destruct (negotiatePreferredVersion gvString MetricVersions apiGroup)
    as [preferredVersion|err] eqn:Hnegotiate; [|done].
  destruct (UnsafeConvertToVersionVia APIVersionInternal (converter.scheme c) opts
              preferredVersion) as [[obj|err] s] eqn:Hvia; [|done].
  intros [= <- <-]. exists apiGroup, preferredVersion. simpl.
  destruct (negotiated_from_table gvString MetricVersions apiGroup preferredVersion
              (or_intror Hnegotiate)) as (key & Hlookup & Hkey).
  destruct (metricVersionsToGV_Some _ _ Hlookup) as [Hknown Hrendering].
  rewrite Hrendering. done.
Qed.
End ConverterMore.

Section ResultMore.
Variable MetricVersions : list schema.GroupVersion.
Variable APIVersionInternal : string.
Context {S F M Object : Type}.
Context {schemeOf : runtime.Scheme S Object}.
Context {codecsOf : serializer.CodecFactory F Object}.

Local Abbreviation ConvertResultToVersion :=
  (ConvertResultToVersion MetricVersions APIVersionInternal
     (S := runtime.spy S Object) (F := F) (M := M)).

(** [ConvertResultToVersion] goes through the error of the transport
    result, the reading of the body and the decoding in that order and
    stops at the first that fails: its error is returned as it is, and the
    scheme has not been asked for any conversion.  Only a decoded object is
    converted, as [UnsafeConvertToVersionVia] converts it; the codecs and
    the source of versions are left as they were. *)
Theorem ConvertResultToVersion_stages
    (c : converter.MetricConverter (runtime.spy S Object) F M)
    (res : rest.Result) (gv : schema.GroupVersion) :
  let run := ConvertResultToVersion c res gv in
  let decoder := serializer.UniversalDecoder (converter.codecs c) MetricVersions in
  converter.codecs run.2 = converter.codecs c
  ∧ converter.metricsVersions run.2 = converter.metricsVersions c
  ∧ ((∃ err,
         run.1 = Err err
         ∧ runtime.conversions (converter.scheme run.2)
           = runtime.conversions (converter.scheme c)
         ∧ (rest.Error res = Some err
            ∨ (rest.Error res = None ∧ rest.Raw res = Err err)
            ∨ (∃ body, rest.Error res = None ∧ rest.Raw res = Ok body
                       ∧ decoder body = Err err)))
     ∨ (∃ body rawMetricObj,
           rest.Error res = None ∧ rest.Raw res = Ok body
           ∧ decoder body = Ok rawMetricObj
           ∧ run.1
             = (UnsafeConvertToVersionVia APIVersionInternal (converter.scheme c)
                  rawMetricObj gv).1
           ∧ converter.scheme run.2
             = (UnsafeConvertToVersionVia APIVersionInternal (converter.scheme c)
                  rawMetricObj gv).2)).
Proof.
  intros run decoder. subst run decoder. unfold ConvertResultToVersion.
  destruct (rest.Error res) as [err|].
  { split; [done|]. split; [done|]. left. exists err. by repeat split; [..|left]. }
  destruct (rest.Raw res) as [body|err].
  2: { split; [done|]. split; [done|]. left. exists err.
       by repeat split; [..|right; left]. }
  destruct (serializer.UniversalDecoder (converter.codecs c) MetricVersions body)
    as [rawMetricObj|err] eqn:Hdecode.
  - destruct (UnsafeConvertToVersionVia APIVersionInternal (converter.scheme c)
                rawMetricObj gv) as [[metricObj|err] s] eqn:Hvia; simpl.
    all: split; [done|]; split; [done|]; right; exists body, rawMetricObj.
    all: by rewrite Hvia.
  - split; [done|]. split; [done|]. left. exists err. split; [done|]. split; [done|].
    right; right. by exists body.
Qed.
End ResultMore.

(** The two cases of [TestMetricConverter], with the tag-replacing scheme in
    the place of the real one. *)
Example TestMetricConverter_preferred_version :
  (ConvertListOptionsToPreferredVersion schema.String fixtures.MetricVersions
     fixtures.APIVersionInternal
     (schemeOf := fixtures.retag) (versionsOf := constant_AvailableMetricsAPIFunc)
     (NewMetricConverter tt tt (fixtures.makeAPIGroup "v1beta1" ["v1beta2"]))
     (fixtures.gv fixtures.APIVersionInternal, "foo")).1
  = Returns (Ok (fixtures.gv "v1beta1", "foo")).
Proof. reflexivity. Qed.

Example TestMetricConverter_first_available :
  (ConvertListOptionsToPreferredVersion schema.String fixtures.MetricVersions
     fixtures.APIVersionInternal
     (schemeOf := fixtures.retag) (versionsOf := constant_AvailableMetricsAPIFunc)
     (NewMetricConverter tt tt (fixtures.makeAPIGroup "" ["v1beta2"; "v1beta1"]))
     (fixtures.gv fixtures.APIVersionInternal, "foo")).1
  = Returns (Ok (fixtures.gv "v1beta2", "foo")).
Proof. reflexivity. Qed.

(** A source of versions that returns neither a group nor an error makes
    the converter dereference [nil]. *)
Example ConvertListOptionsToPreferredVersion_nil_group :
  (ConvertListOptionsToPreferredVersion schema.String fixtures.MetricVersions
     fixtures.APIVersionInternal
     (schemeOf := fixtures.retag) (versionsOf := nil_AvailableMetricsAPIFunc)
     (NewMetricConverter tt tt tt) (fixtures.gv fixtures.APIVersionInternal, "foo")).1
  = NilPointerDereference.
Proof. reflexivity. Qed.

(** A body that decodes as v1beta2 is handed out as v1beta1. *)
Example ConvertResultToVersion_decodes_and_converts :
  (ConvertResultToVersion fixtures.MetricVersions fixtures.APIVersionInternal
     (schemeOf := fixtures.retag) (codecsOf := payloadCodec)
     (NewMetricConverter tt tt tt)
     {| rest.Error := None; rest.Raw := Ok (String.list_byte_of_string "42") |}
     (fixtures.gv "v1beta1")).1
  = Ok (fixtures.gv "v1beta1", "42").
Proof. reflexivity. Qed.

Lemma ConvertListOptionsToPreferredVersion_result_witness :
  let c : converter.MetricConverter unit unit metav1.APIGroup :=
    NewMetricConverter tt tt (fixtures.makeAPIGroup "v1beta1" ["v1beta2"]) in
  let opts : fixtures.Object := (fixtures.gv fixtures.APIVersionInternal, "foo") in
  let paramObj : fixtures.Object := (fixtures.gv "v1beta1", "foo") in
  ConvertListOptionsToPreferredVersion schema.String fixtures.MetricVersions
    fixtures.APIVersionInternal
    (schemeOf := fixtures.retag) (versionsOf := constant_AvailableMetricsAPIFunc) c opts
  = (Returns (Ok paramObj), c)
  ∧ ∃ apiGroup preferredVersion,
      (callAvailableMetricsAPIFunc (AvailableMetricsAPIFunc := constant_AvailableMetricsAPIFunc)
         (converter.metricsVersions c)).1 = (Some apiGroup, None)
      ∧ converter.metricsVersions c
        = (callAvailableMetricsAPIFunc
             (AvailableMetricsAPIFunc := constant_AvailableMetricsAPIFunc)
             (converter.metricsVersions c)).2
      ∧ negotiatePreferredVersion schema.String fixtures.MetricVersions apiGroup
        = Ok preferredVersion
      ∧ preferredVersion ∈ fixtures.MetricVersions
      ∧ (schema.String preferredVersion
         = metav1.GroupVersion (metav1.PreferredVersion apiGroup)
         ∨ schema.String preferredVersion
           ∈ metav1.GroupVersion <$> metav1.Versions apiGroup)
      ∧ UnsafeConvertToVersionVia (scheme := fixtures.retag) fixtures.APIVersionInternal
          (converter.scheme c) opts preferredVersion
        = (Ok paramObj, converter.scheme c).
Proof.
  intros c opts paramObj.
  assert (ConvertListOptionsToPreferredVersion schema.String fixtures.MetricVersions
            fixtures.APIVersionInternal
            (schemeOf := fixtures.retag) (versionsOf := constant_AvailableMetricsAPIFunc)
            c opts
          = (Returns (Ok paramObj), c)) as Hrun by reflexivity.
  split; [exact Hrun|].
  exact (ConvertListOptionsToPreferredVersion_result schema.String fixtures.MetricVersions
           fixtures.APIVersionInternal
           (schemeOf := fixtures.retag) (versionsOf := constant_AvailableMetricsAPIFunc)
           c c opts paramObj Hrun).
Defined.

(** Witness: the scheme that knows no conversion at all. *)
Lemma UnsafeConvertToVersionVia_failure_witness :
  let refuse : runtime.Scheme unit fixtures.Object :=
    λ s obj target, (Err (ErrorString "no kind is registered"), s) in
  let obj : fixtures.Object := (fixtures.gv "v1beta1", "foo") in
  let X := fixtures.gv "v1beta2" in
  let err :=
    ErrorString
      "failed to convert the given object to the internal version: no kind is registered" in
  let c' : runtime.spy unit fixtures.Object :=
    runtime.Spy tt [(obj, fixtures.gv fixtures.APIVersionInternal)] in
  UnsafeConvertToVersionVia (scheme := runtime.spy_Scheme (scheme := refuse))
    fixtures.APIVersionInternal (runtime.Spy tt []) obj X
  = (Err err, c')
  ∧ err ≠ ErrCacheEmpty.
Proof.
  intros refuse obj X err c'.
  assert (UnsafeConvertToVersionVia (scheme := runtime.spy_Scheme (scheme := refuse))
            fixtures.APIVersionInternal (runtime.Spy tt []) obj X
          = (Err err, c')) as Hrun by reflexivity.
  split; [exact Hrun|].
  exact (proj1 (UnsafeConvertToVersionVia_failure (scheme := refuse)
                  fixtures.APIVersionInternal (runtime.Spy tt []) c' obj X err Hrun)).
Defined.

(** ** The metrics provider of the end-to-end adapter *)

Section ProviderFacts.
Context {Client Mapper Clock Time Quantity : Type}.
Variable ParseGroupResource : string → e2e.schema.GroupResource.
Variable Normalized :
  e2e.cmprovider.CustomMetricInfo → Mapper
  → e2e.cmprovider.CustomMetricInfo * string * option error.
Variable KindFor :
  Mapper → e2e.schema.GroupVersionResource → result e2e.schema.GroupVersionKind.
Variable NewMetricNotFoundForError : e2e.schema.GroupResource → string → string → error.
Variable NewMilliQuantity : Z → e2e.Format → Quantity.
Variable Now : Clock → Time * Clock.
Variable APIVersionInternal : string.

Local Abbreviation provider := (e2e.E2EProvider Client Mapper).
Local Abbreviation updateResource := (e2e.updateResource ParseGroupResource Normalized).
Local Abbreviation valueFor := (e2e.valueFor Normalized NewMetricNotFoundForError).
Local Abbreviation metricFor :=
  (e2e.metricFor KindFor NewMilliQuantity Now APIVersionInternal).
Local Abbreviation GetRootScopedMetricByName :=
  (e2e.GetRootScopedMetricByName Normalized KindFor NewMetricNotFoundForError
     NewMilliQuantity Now APIVersionInternal).
Local Abbreviation GetNamespacedMetricByName :=
  (e2e.GetNamespacedMetricByName Normalized KindFor NewMetricNotFoundForError
     NewMilliQuantity Now APIVersionInternal).

(** The key under which [updateResource] files the value of a request. *)
Lemma updateResource_values (p : provider) (namespace resourceType name metric : string)
    (value : e2e.MetricValue) (response : e2e.restful.Response) :
  let namespaced :=
    (0 <? String.length namespace)%nat || String.eqb resourceType "namespaces" in
  let info :=
    (Normalized
       {| e2e.cmprovider.GroupResource := ParseGroupResource resourceType;
          e2e.cmprovider.Metric := metric;
          e2e.cmprovider.Namespaced := namespaced |} (e2e.mapper p)).1.1 in
  updateResource p (e2e.request namespace resourceType name metric (Ok value)) response
  = ({| e2e.client := e2e.client p; e2e.mapper := e2e.mapper p;
        e2e.values :=
          <[ {| e2e.CustomMetricInfo := info; e2e.Name := name;
                e2e.Namespace := namespace |} := e2e.Value value ]> (e2e.values p) |},
     response).
Proof.
  unfold e2e.updateResource. simpl.
  destruct ((0 <? String.length namespace)%nat || String.eqb resourceType "namespaces");
    by destruct (Normalized _ (e2e.mapper p)) as [[info singular] err].
Qed.


End ProviderFacts.

Section ProviderList.
Context {Client Mapper : Type}.
Variable ParseGroupResource : string → e2e.schema.GroupResource.
Variable Normalized :
  e2e.cmprovider.CustomMetricInfo → Mapper
  → e2e.cmprovider.CustomMetricInfo * string * option error.

Local Abbreviation provider := (e2e.E2EProvider Client Mapper).
Local Abbreviation updateResource := (e2e.updateResource ParseGroupResource Normalized).

Lemma elem_of_ListAllMetrics (p : provider) (info : e2e.cmprovider.CustomMetricInfo) :
  info ∈ e2e.ListAllMetrics p
  ↔ ∃ name namespace,
      is_Some (e2e.values p
                 !! {| e2e.CustomMetricInfo := info; e2e.Name := name;
                       e2e.Namespace := namespace |}).
Proof.
  unfold e2e.ListAllMetrics. rewrite elem_of_elements, elem_of_map. split.
  - intros ([info' name namespace] & -> & Hdom%elem_of_dom). simpl.
    by exists name, namespace.
  - intros (name & namespace & Hsome%elem_of_dom).
    by exists {| e2e.CustomMetricInfo := info; e2e.Name := name;
                 e2e.Namespace := namespace |}.
Qed.

(** [ListAllMetrics] lists every metric info for which some value is stored,
    whatever the object and the namespace, and lists each info once. *)
Theorem ListAllMetrics_distinct_infos (p : provider) :
  NoDup (e2e.ListAllMetrics p)
  ∧ ∀ info,
      info ∈ e2e.ListAllMetrics p
      ↔ ∃ name namespace,
          is_Some (e2e.values p
                     !! {| e2e.CustomMetricInfo := info; e2e.Name := name;
                           e2e.Namespace := namespace |}).
Proof.
  split; [apply NoDup_elements | apply elem_of_ListAllMetrics].
Qed.

End ProviderList.

Section ProviderMetric.
Context {Client Mapper Clock Time Quantity : Type}.
Variable Normalized :
  e2e.cmprovider.CustomMetricInfo → Mapper
  → e2e.cmprovider.CustomMetricInfo * string * option error.
Variable KindFor :
  Mapper → e2e.schema.GroupVersionResource → result e2e.schema.GroupVersionKind.
Variable NewMetricNotFoundForError : e2e.schema.GroupResource → string → string → error.
Variable NewMilliQuantity : Z → e2e.Format → Quantity.
Variable Now : Clock → Time * Clock.
Variable APIVersionInternal : string.

Local Abbreviation provider := (e2e.E2EProvider Client Mapper).
Local Abbreviation metricFor :=
  (e2e.metricFor KindFor NewMilliQuantity Now APIVersionInternal).

(** The product of an [int64] by 1000 is exact within these bounds and
    wraps around outside of them. *)
Lemma mul64_1000 (value : Z) :
  (e2e.mul64 value 1000 = value * 1000
   ↔ -9223372036854775 ≤ value ≤ 9223372036854775)%Z
  ∧ (- 2 ^ 63 ≤ e2e.mul64 value 1000 < 2 ^ 63)%Z.
Proof.
  unfold e2e.mul64, e2e.wrap64.
  change (2 ^ 63)%Z with 9223372036854775808%Z.
  change (2 ^ 64)%Z with 18446744073709551616%Z.
  pose proof (Z.mod_pos_bound (value * 1000 + 9223372036854775808)
                18446744073709551616 eq_refl) as Hbound.
  split; [|lia]. split.
  - intros Heq. lia.
  - intros Hrange. rewrite Z.mod_small by lia. lia.
Qed.

(** [metricFor] reports a stored value in milli-units, as the value times
    1000 computed in [int64]: the quantity is a thousand times the value
    exactly when the value lies between -9223372036854775 and
    9223372036854775, and a wrapped-around number of milli-units
    otherwise. *)
Theorem metricFor_milli_units (p : provider) (clock : Clock) (value : Z)
    (groupResource : e2e.schema.GroupResource) (namespace name metricName : string)
    (kind : e2e.schema.GroupVersionKind) :
  KindFor (e2e.mapper p) (e2e.schema.WithVersion groupResource "") = Ok kind →
  ∃ metric milli,
    (metricFor p clock value groupResource namespace name metricName).1 = Ok metric
    ∧ e2e.custom_metrics.Value metric = NewMilliQuantity milli e2e.DecimalSI
    ∧ (- 2 ^ 63 ≤ milli < 2 ^ 63)%Z
    ∧ (milli = (1000 * value)%Z
       ↔ (-9223372036854775 ≤ value ≤ 9223372036854775)%Z).
Proof.
  intros Hkind. unfold e2e.metricFor. rewrite Hkind.
  destruct (Now clock) as [now clock']. simpl.
  eexists _, (e2e.mul64 value 1000). split; [done|]. split; [done|].
  destruct (mul64_1000 value) as [Hexact Hrange]. split; [done|].
  by rewrite Z.mul_comm.
Qed.

End ProviderMetric.



(** Witness: the value of the README's example request. *)
Lemma metricFor_milli_units_witness :
  let p : e2e.E2EProvider unit unit := e2e.NewE2EProvider tt tt in
  let kind :=
    {| e2e.schema.gvkGroup := ""; e2e.schema.gvkVersion := "v1";
       e2e.schema.Kind := "Pod" |} in
  e2e.plainKindFor (e2e.mapper p) (e2e.schema.WithVersion (e2e.plainParse "pods") "")
  = Ok kind
  ∧ ∃ metric milli,
      (e2e.metricFor e2e.plainKindFor e2e.plainMilli e2e.tick fixtures.APIVersionInternal
         p 0 4200000000000%Z (e2e.plainParse "pods") "default" "web-0"
         "packets-per-second").1
      = Ok metric
      ∧ e2e.custom_metrics.Value metric = e2e.plainMilli milli e2e.DecimalSI
      ∧ (- 2 ^ 63 ≤ milli < 2 ^ 63)%Z
      ∧ (milli = (1000 * 4200000000000)%Z
         ↔ (-9223372036854775 ≤ 4200000000000 ≤ 9223372036854775)%Z).
Proof.
  intros p kind.
  assert (e2e.plainKindFor (e2e.mapper p)
            (e2e.schema.WithVersion (e2e.plainParse "pods") "") = Ok kind)
    as Hkind by reflexivity.
  split; [exact Hkind|].
  exact (metricFor_milli_units e2e.plainKindFor e2e.plainMilli e2e.tick
           fixtures.APIVersionInternal p 0 4200000000000%Z (e2e.plainParse "pods")
           "default" "web-0" "packets-per-second" kind Hkind).
Defined.

(** Beyond the bound the reported milli-units have wrapped around. *)
Example metricFor_wraps_around :
  (e2e.metricFor e2e.plainKindFor e2e.plainMilli e2e.tick fixtures.APIVersionInternal
     (e2e.NewE2EProvider tt tt) 0 9223372036854776%Z (e2e.plainParse "pods")
     "default" "web-0" "packets-per-second").1
  = Ok {| e2e.custom_metrics.DescribedObject :=
            {| e2e.custom_metrics.APIVersion := "/__internal";
               e2e.custom_metrics.Kind := "Pod";
               e2e.custom_metrics.Name := "web-0";
               e2e.custom_metrics.Namespace := "default" |};
          e2e.custom_metrics.MetricName := "packets-per-second";
          e2e.custom_metrics.Timestamp := 0;
          e2e.custom_metrics.Value := (-9223372036854775616)%Z |}.
Proof. reflexivity. Qed.

(** A body that cannot be read is answered with a 400 and stores nothing. *)
Example updateResource_unreadable_body :
  e2e.updateResource e2e.plainParse e2e.plainNormalized (e2e.NewE2EProvider tt tt)
    (e2e.request "default" "pods" "web-0" "packets-per-second"
       (Err (ErrorString "unexpected end of JSON input"))) []
  = (e2e.NewE2EProvider tt tt, [(400, "unexpected end of JSON input")]).
Proof. reflexivity. Qed.
